(** * Lamport's bakery lock of [main.py]: model and verification

    The module-level lists [choosing] and [number], the registration loop
    [ensure_bakery_size], the procedures [bakery_lock] and [bakery_unlock],
    and the methods [System.reset] and [System.allocate_bakery_id] are
    embedded below.  Python integers are [Z]; a Python list is a [list]
    read and written through Python's index rule (negative indices count
    from the end, anything else out of range raises [IndexError]). *)

From Stdlib Require Import ZArith List Lia Bool String DecimalString Ascii.
From stdpp Require Import base tactics option list.
From Equations Require Import Equations.
Import ListNotations.

Local Open Scope Z_scope.

(** ** Python lists *)

Module Py.

(** The outcome of a statement that may raise. *)
Inductive result (A : Type) : Type :=
| Ok (a : A)
| IndexError.
Arguments Ok {A} a.
Arguments IndexError {A}.

Definition bind {A B} (r : result A) (k : A -> result B) : result B :=
  match r with
  | Ok a => k a
  | IndexError => IndexError
  end.

Definition of_option {A} (o : option A) : result A :=
  match o with
  | Some a => Ok a
  | None => IndexError
  end.

(** [len(l)] *)
Definition len {A} (l : list A) : Z := Z.of_nat (length l).

(** The position that index [i] denotes in a list of the length of [l]:
    [i] itself when [0 <= i < len(l)], [len(l) + i] when
    [-len(l) <= i < 0], none otherwise. *)
Definition index {A} (l : list A) (i : Z) : option nat :=
  if (0 <=? i) && (i <? len l) then Some (Z.to_nat i)
  else if (- len l <=? i) && (i <? 0) then Some (Z.to_nat (len l + i))
  else None.

(** [l[i]] *)
Definition getitem {A} (l : list A) (i : Z) : result A :=
  match index l i with
  | Some k => of_option (l !! k)
  | None => IndexError
  end.

(** [l[i] = x] *)
Definition setitem {A} (l : list A) (i : Z) (x : A) : result (list A) :=
  match index l i with
  | Some k => Ok (<[k := x]> l)
  | None => IndexError
  end.

(** [max(l)] of a non-empty list of integers *)
Definition max_list (x : Z) (l : list Z) : Z := fold_left Z.max l x.

(** [max(l) if l else 0] *)
Definition max_or_zero (l : list Z) : Z :=
  match l with
  | [] => 0
  | x :: l' => max_list x l'
  end.

End Py.

Notation "'let!' x ':=' r 'in' k" := (Py.bind r (fun x => k))
  (at level 10, x name, r at level 100, k at level 200, only parsing).

(** ** The registry: the globals [choosing] and [number] *)

Record Bakery : Type := mkBakery {
  choosing : list bool;
  number : list Z
}.

(** [choosing = []; number = []] (lines 37-38) *)
Definition bakery_init : Bakery := mkBakery [] [].

(** Body of the loop of [ensure_bakery_size] (lines 50-51). *)
Definition append_slot (b : Bakery) : Bakery :=
  mkBakery (choosing b ++ [false]) (number b ++ [0]).

(** The loop [while idx >= len(choosing)] (line 49); it terminates because
    each round shortens the distance from [len(choosing)] to [idx + 1]. *)
Equations? ensure_loop (idx : Z) (b : Bakery) : Bakery
  by wf (Z.to_nat (idx + 1 - Py.len (choosing b))) lt :=
  ensure_loop idx b with Z_ge_dec idx (Py.len (choosing b)) => {
    | left _ := ensure_loop idx (append_slot b);
    | right _ := b }.
Proof.
  unfold Py.len in *. simpl. rewrite length_app. simpl. lia.
Qed.

(** [ensure_bakery_size(idx)]: the loop, run under [bakery_mutex]. *)
Definition ensure_bakery_size (idx : Z) (b : Bakery) : Bakery :=
  ensure_loop idx b.


(** [bakery_unlock(i)]: [number[i] = 0] (line 85). *)
Definition bakery_unlock (i : Z) (b : Bakery) : Py.result Bakery :=
  let! nm := Py.setitem (number b) i 0 in
  Py.Ok (mkBakery (choosing b) nm).

(** ** [bakery_lock], statement by statement *)

(** The next statement of [bakery_lock(i)] to execute, with the locals
    [max_num], the bound [n] of [range(len(number))] and the loop index
    [j] once they are defined. *)
Inductive pc : Type :=
| AtEnsure                    (* line 61: ensure_bakery_size(i) *)
| AtSetChoosing               (* line 62: choosing[i] = True *)
| AtReadMax                   (* line 64: max_num = max(number) if number else 0 *)
| AtSetNumber (max_num : Z)   (* line 65: number[i] = max_num + 1 *)
| AtClearChoosing             (* line 66: choosing[i] = False *)
| AtFor                       (* line 68: for j in range(len(number)) *)
| AtWhileChoosing (n j : Z)   (* line 70: while choosing[j] *)
| AtSleepChoosing (n j : Z)   (* line 71: time.sleep(0.001) *)
| AtWhileNumber (n j : Z)     (* line 74: while number[j] != 0 and (...) *)
| AtSleepNumber (n j : Z)     (* line 75: time.sleep(0.001) *)
| Returned.                   (* the for loop is exhausted: return *)

(** The head of the [for] loop: the next [j] of [range(n)], if any. *)
Definition for_next (n j : Z) : pc :=
  if j <? n then AtWhileChoosing n j else Returned.

(** The Fairness Comparator: [(nj, j)] before [(ni, i)]. *)
Definition ticket_lt (nj j ni i : Z) : bool :=
  (nj <? ni) || ((nj =? ni) && (j <? i)).

(** The condition of line 74, read in one step:
    [number[j] != 0 and (number[j] < number[i] or
                         (number[j] == number[i] and j < i))]. *)
Definition number_cond (i j : Z) (b : Bakery) : Py.result bool :=
  let! nj := Py.getitem (number b) j in
  if nj =? 0 then Py.Ok false
  else
    let! ni := Py.getitem (number b) i in
    Py.Ok (ticket_lt nj j ni i).

(** One statement of [bakery_lock(i)].  The inner [while] (line 74) sits in
    the body of the outer one (line 70), as the source indents it: it is
    reached only from the [sleep] of line 71, and when it ends control goes
    back to the test of line 70. *)
Definition lock_step (i : Z) (p : pc) (b : Bakery) : Py.result (pc * Bakery) :=
  match p with
  | AtEnsure => Py.Ok (AtSetChoosing, ensure_bakery_size i b)
  | AtSetChoosing =>
      let! ch := Py.setitem (choosing b) i true in
      Py.Ok (AtReadMax, mkBakery ch (number b))
  | AtReadMax => Py.Ok (AtSetNumber (Py.max_or_zero (number b)), b)
  | AtSetNumber max_num =>
      let! nm := Py.setitem (number b) i (max_num + 1) in
      Py.Ok (AtClearChoosing, mkBakery (choosing b) nm)
  | AtClearChoosing =>
      let! ch := Py.setitem (choosing b) i false in
      Py.Ok (AtFor, mkBakery ch (number b))
  | AtFor => Py.Ok (for_next (Py.len (number b)) 0, b)
  | AtWhileChoosing n j =>
      let! c := Py.getitem (choosing b) j in
      Py.Ok (if c then AtSleepChoosing n j else for_next n (j + 1), b)
  | AtSleepChoosing n j => Py.Ok (AtWhileNumber n j, b)
  | AtWhileNumber n j =>
      let! c := number_cond i j b in
      Py.Ok (if c then AtSleepNumber n j else AtWhileChoosing n j, b)
  | AtSleepNumber n j => Py.Ok (AtWhileNumber n j, b)
  | Returned => Py.Ok (Returned, b)
  end.

(** Whether the statement at [p] is a [time.sleep]. *)
Definition is_sleep (p : pc) : bool :=
  match p with
  | AtSleepChoosing _ _ | AtSleepNumber _ _ => true
  | _ => false
  end.

(** How a call ends when no other thread runs: it returns, having slept
    [sleeps] times, it raises, or it is still running when the fuel is
    spent. *)
Inductive outcome : Type :=
| Returns (sleeps : nat) (b : Bakery)
| Raises
| Running.

Fixpoint lock_run (fuel : nat) (i : Z) (p : pc) (sleeps : nat) (b : Bakery)
  : outcome :=
  match p with
  | Returned => Returns sleeps b
  | _ =>
      match fuel with
      | O => Running
      | S fuel' =>
          match lock_step i p b with
          | Py.Ok (p', b') =>
              lock_run fuel' i p' (if is_sleep p then S sleeps else sleeps) b'
          | Py.IndexError => Raises
          end
      end
  end.

(** [bakery_lock(i)] run alone for at most [fuel] statements. *)
Definition bakery_lock (fuel : nat) (i : Z) (b : Bakery) : outcome :=
  lock_run fuel i AtEnsure 0 b.

(** Where a call that started at [p] in [b] stands after [n] statements,
    when no other thread runs. *)
Fixpoint lock_after (n : nat) (i : Z) (p : pc) (b : Bakery)
  : Py.result (pc * Bakery) :=
  match n with
  | O => Py.Ok (p, b)
  | S n' =>
      let! pb := lock_step i p b in
      lock_after n' i (fst pb) (snd pb)
  end.

(** ** Participants running side by side *)

(** What the participant with a given bakery id is doing.  Every caller in
    [main.py] brackets its critical section as [bakery_lock(id); try: ...
    finally: bakery_unlock(id)].

    The sections of [Process.set_state] (lines 124-129) when it is called
    from [run_process], of [run_process] (lines 227-232) and of
    [start_thread] (lines 247-252) make no further call of the lock: they
    are [Idle], [Locking], [Critical].

    The first section an id goes through is that of
    [option_1_simulate_process] (lines 275-281), which calls
    [proc.set_state("READY")] while it holds the lock, so that
    [bakery_lock] and [bakery_unlock] run a second time, with the same id,
    inside it: a process just created is [New] and goes through
    [Entering], [Outer], [Relocking], [Inner], [Released]; after that it is
    [Idle]. *)
Inductive thread : Type :=
| Idle                (* not using the lock *)
| Locking (p : pc)    (* inside bakery_lock(id) *)
| Critical            (* bakery_lock has returned, bakery_unlock is to come *)
| New                 (* line 273: created, line 275 is to come *)
| Entering (p : pc)   (* inside the bakery_lock(id) of line 275 *)
| Outer               (* line 278: in the section, set_state is to come *)
| Relocking (p : pc)  (* inside the bakery_lock(id) of line 124 *)
| Inner               (* line 127: in the section of set_state *)
| Released.           (* lines 131-279: set_state has run its
                         bakery_unlock; the one of line 281 is to come *)

Definition thread_step (i : Z) (t : thread) (b : Bakery)
  : Py.result (thread * Bakery) :=
  match t with
  | Idle => Py.Ok (Locking AtEnsure, b)
  | Locking Returned => Py.Ok (Critical, b)
  | Locking p =>
      let! pb := lock_step i p b in
      Py.Ok (Locking (fst pb), snd pb)
  | Critical =>
      let! b' := bakery_unlock i b in
      Py.Ok (Idle, b')
  | New => Py.Ok (Entering AtEnsure, b)
  | Entering Returned => Py.Ok (Outer, b)
  | Entering p =>
      let! pb := lock_step i p b in
      Py.Ok (Entering (fst pb), snd pb)
  | Outer => Py.Ok (Relocking AtEnsure, b)
  | Relocking Returned => Py.Ok (Inner, b)
  | Relocking p =>
      let! pb := lock_step i p b in
      Py.Ok (Relocking (fst pb), snd pb)
  | Inner =>
      let! b' := bakery_unlock i b in
      Py.Ok (Released, b')
  | Released =>
      let! b' := bakery_unlock i b in
      Py.Ok (Idle, b')
  end.

(** The shared lists and, for every thread, its bakery id and where it
    stands. *)
Record Config : Type := mkConfig {
  shared : Bakery;
  threads : list (Z * thread)
}.

(** Thread number [t] executes its next statement. *)
Definition sys_step (t : nat) (c : Config) : Py.result Config :=
  match threads c !! t with
  | Some (i, th) =>
      let! tb := thread_step i th (shared c) in
      Py.Ok (mkConfig (snd tb) (<[t := (i, fst tb)]> (threads c)))
  | None => Py.Ok c
  end.

(** An interleaving: the threads that move, in order. *)
Fixpoint run_schedule (sched : list nat) (c : Config) : Py.result Config :=
  match sched with
  | [] => Py.Ok c
  | t :: sched' =>
      let! c' := sys_step t c in
      run_schedule sched' c'
  end.

(** The participant is between the return of a [bakery_lock] and the
    [bakery_unlock] that closes the section it opened. *)
Definition is_critical (it : Z * thread) : bool :=
  match snd it with
  | Critical | Outer | Relocking _ | Inner | Released => true
  | _ => false
  end.

(** At most one participant is in its critical section. *)
Definition mutual_exclusion (c : Config) : Prop :=
  (length (List.filter is_critical (threads c)) <= 1)%nat.

(** ** The [System] object *)

Record Process : Type := mkProcess {
  pid : Z;
  burst_time : Z;
  remaining : Z;
  state : string;
  priority : Z;
  bakery_id : option Z
}.

Record System : Type := mkSystem {
  ready_queue : list Process;
  terminated : list Process;
  running_threads : list Z;
  last_pid : Z;
  bakery_id_counter : Z
}.

(** The program state: the object [SYSTEM] and the module globals. *)
Record World : Type := mkWorld {
  SYSTEM : System;
  bakery : Bakery
}.

(** [System.__init__] (lines 150-156) *)
Definition system_init : System := mkSystem [] [] [] 0 0.

(** The state once the module is loaded (lines 36-38 and 188). *)
Definition world_init : World := mkWorld system_init bakery_init.

(** [System.reset] (lines 158-172) *)
Definition reset (w : World) : World :=
  mkWorld (mkSystem [] [] [] 0 0) (mkBakery [] []).

(** [System.allocate_bakery_id] (lines 174-185): the id returned and the
    state left. *)
Definition allocate_bakery_id (w : World) : Z * World :=
  let idx := bakery_id_counter (SYSTEM w) in
  let sys := mkSystem (ready_queue (SYSTEM w)) (terminated (SYSTEM w))
               (running_threads (SYSTEM w)) (last_pid (SYSTEM w)) (idx + 1) in
  (idx, mkWorld sys (ensure_bakery_size idx (bakery w))).

(** ** The length invariant *)

(** [choosing] and [number] have the same length. *)
Definition lengths_agree (b : Bakery) : Prop :=
  length (choosing b) = length (number b).

(** ** Auxiliary notions used in the statements *)

(** The slots that [ensure_bakery_size(idx)] appends. *)
Definition missing (idx : Z) (b : Bakery) : nat :=
  Z.to_nat (idx + 1 - Py.len (choosing b)).

(** The state after the ticket of [i] is written and its flag cleared. *)
Definition ticket_taken (i : Z) (b : Bakery) : Bakery :=
  let k := Z.to_nat i in
  let b1 := ensure_bakery_size i b in
  mkBakery (<[k := false]> (<[k := true]> (choosing b1)))
           (<[k := Py.max_or_zero (number b1) + 1]> (number b1)).

(** No participant is choosing. *)
Definition none_choosing (b : Bakery) : Prop :=
  forall (k : nat) (c : bool), choosing b !! k = Some c -> c = false.

(** The statements of [bakery_lock] between the two writes of
    [choosing[i]]: lines 64, 65 and 66 are still to run. *)
Definition in_choosing_window (p : pc) : bool :=
  match p with
  | AtReadMax | AtSetNumber _ | AtClearChoosing => true
  | _ => false
  end.

(** The participants have distinct, non-negative ids, as the allocator
    hands them out. *)
Definition ids_ok (c : Config) : Prop :=
  NoDup (fst <$> threads c) /\
  (forall (t : nat) (i : Z) (th : thread),
     threads c !! t = Some (i, th) -> 0 <= i).

(** The statement of [bakery_lock] the participant is at, in any of the
    three calls. *)
Definition lock_pc (th : thread) : option pc :=
  match th with
  | Locking p | Entering p | Relocking p => Some p
  | _ => None
  end.

(** The participant is between lines 62 and 66 of a call of
    [bakery_lock]. *)
Definition thread_window (th : thread) : bool :=
  match lock_pc th with
  | Some p => in_choosing_window p
  | None => false
  end.

(** Every participant between its two flag writes has its flag set. *)
Definition flag_held (c : Config) : Prop :=
  forall (t : nat) (i : Z) (th : thread),
    threads c !! t = Some (i, th) ->
    thread_window th = true ->
    choosing (shared c) !! Z.to_nat i = Some true.

(** Two participants with the ids the allocator hands out first, both
    idle. *)
Definition two_participants : Config :=
  let a0 := allocate_bakery_id world_init in
  let a1 := allocate_bakery_id (snd a0) in
  mkConfig (bakery (snd a1)) [(fst a0, Idle); (fst a1, Idle)].

(** ** Notions for runs of [bakery_lock] *)

(** The bound and the index of the [for] loop, at the statements inside
    it. *)
Definition loop_index (p : pc) : option (Z * Z) :=
  match p with
  | AtWhileChoosing n j | AtSleepChoosing n j
  | AtWhileNumber n j | AtSleepNumber n j => Some (n, j)
  | _ => None
  end.

(** Inside the loop, [j] is an element of [range(n)] and [n] is no more
    than the current length of the lists. *)
Definition loop_ok (p : pc) (b : Bakery) : Prop :=
  match loop_index p with
  | Some (n, j) => 0 <= j < n /\ n <= Py.len (number b)
  | None => True
  end.

(** What the statement at [p] needs to execute without raising: [i] is not
    below [-len], past line 61 it is below [len], and the loop index is in
    range. *)
Definition step_ready (i : Z) (p : pc) (b : Bakery) : Prop :=
  lengths_agree b /\
  - Py.len (number b) <= i /\
  (p <> AtEnsure -> i < Py.len (number b)) /\
  loop_ok p b.

(** Every flag but the one in slot [k] is clear. *)
Definition others_clear (k : nat) (b : Bakery) : Prop :=
  forall (j : nat) (c : bool), j <> k -> choosing b !! j = Some c -> c = false.

(** A run of [bakery_lock(i)] that finds the flag of slot [k] set: it is
    at a statement before or at [j = k], and slot [k] is not its own. *)
Definition spinning (k : nat) (i : Z) (p : pc) (b : Bakery) : Prop :=
  step_ready i p b /\ p <> Returned /\
  choosing b !! k = Some true /\ k <> Z.to_nat i /\
  match loop_index p with
  | Some (n, j) => j <= Z.of_nat k < n
  | None => True
  end.

(** ** Notions for interleaved runs *)

(** [choosing[k]] and [number[k]], read as the defaults [False] and [0]
    where the lists have no slot [k] yet. *)
Definition flag (b : Bakery) (k : nat) : bool := default false (choosing b !! k).
Definition ticket (b : Bakery) (k : nat) : Z := default 0 (number b !! k).

(** Line 65 of the call has run. *)
Definition ticket_written (p : pc) : bool :=
  match p with
  | AtEnsure | AtSetChoosing | AtReadMax | AtSetNumber _ => false
  | _ => true
  end.

(** The calls of [bakery_lock] a participant makes: from outside any
    section, to open the section of [option_1_simulate_process], and from
    [set_state] inside that section. *)
Inductive call_site : Type := Plain | Opening | Nested.

Definition in_lock (x : call_site) (p : pc) : thread :=
  match x with
  | Plain => Locking p
  | Opening => Entering p
  | Nested => Relocking p
  end.

Definition after_lock (x : call_site) : thread :=
  match x with
  | Plain => Critical
  | Opening => Outer
  | Nested => Inner
  end.

(** The participant has written a ticket (line 65) and has not executed
    [bakery_unlock] since.  In the nested call the ticket of the enclosing
    section is there from the start; once [set_state] has released it, the
    rest of the enclosing section runs without one. *)
Definition holds_ticket (th : thread) : bool :=
  match th with
  | Idle | New | Released => false
  | Locking p | Entering p => ticket_written p
  | Critical | Outer | Relocking _ | Inner => true
  end.

(** The slot of the participant exists: line 61 of a call has run. *)
Definition has_slot (th : thread) : bool :=
  match th with
  | Idle | New | Locking AtEnsure | Entering AtEnsure => false
  | _ => true
  end.

Definition thread_loop_ok (th : thread) (b : Bakery) : Prop :=
  match lock_pc th with
  | Some p => loop_ok p b
  | None => True
  end.

Definition max_num_ok (th : thread) : Prop :=
  match lock_pc th with
  | Some (AtSetNumber m) => 0 <= m
  | _ => True
  end.

(** What holds of the slot of participant [i] while it stands at [th]. *)
Definition thread_inv (i : Z) (th : thread) (b : Bakery) : Prop :=
  (has_slot th = true -> (Z.to_nat i < length (number b))%nat) /\
  flag b (Z.to_nat i) = thread_window th /\
  (if holds_ticket th then 1 <= ticket b (Z.to_nat i)
   else ticket b (Z.to_nat i) = 0) /\
  thread_loop_ok th b /\
  max_num_ok th.

(** Slot [k] belongs to one of the participants. *)
Definition owned (c : Config) (k : nat) : Prop :=
  exists (t : nat) (th : thread), threads c !! t = Some (Z.of_nat k, th).

Definition config_inv (c : Config) : Prop :=
  ids_ok c /\
  lengths_agree (shared c) /\
  (forall k, 0 <= ticket (shared c) k) /\
  (forall t i th, threads c !! t = Some (i, th) -> thread_inv i th (shared c)) /\
  (forall k, ~ owned c k ->
     flag (shared c) k = false /\ ticket (shared c) k = 0).

(** A start of the program: distinct non-negative ids, every participant
    idle, every slot at its default. *)
Definition quiescent (c : Config) : Prop :=
  ids_ok c /\
  lengths_agree (shared c) /\
  (forall t i th, threads c !! t = Some (i, th) -> th = Idle) /\
  (forall k, flag (shared c) k = false /\ ticket (shared c) k = 0).

(** The same, with participants that are idle or just created. *)
Definition fresh_start (c : Config) : Prop :=
  ids_ok c /\
  lengths_agree (shared c) /\
  (forall t i th, threads c !! t = Some (i, th) -> th = Idle \/ th = New) /\
  (forall k, flag (shared c) k = false /\ ticket (shared c) k = 0).

(** The participant makes no nested call: it was idle at the start. *)
Definition plain (th : thread) : Prop :=
  match th with
  | Idle | Locking _ | Critical => True
  | _ => False
  end.

(** The steps of a participant that leave the registry alone: it calls
    [bakery_lock], or [bakery_lock] returns. *)
Definition calls (th th' : thread) : Prop :=
  (th = Idle /\ th' = Locking AtEnsure) \/
  (th = New /\ th' = Entering AtEnsure) \/
  (th = Outer /\ th' = Relocking AtEnsure) \/
  (exists x, th = in_lock x Returned /\ th' = after_lock x).

(** The steps of a participant that run [bakery_unlock]. *)
Definition releases (th th' : thread) : Prop :=
  (th = Critical /\ th' = Idle) \/
  (th = Inner /\ th' = Released) \/
  (th = Released /\ th' = Idle).

(** The statements from line 68 on: the ticket is written and the flag is
    clear. *)
Definition waiting (p : pc) : bool :=
  match p with
  | AtFor | AtWhileChoosing _ _ | AtSleepChoosing _ _
  | AtWhileNumber _ _ | AtSleepNumber _ _ | Returned => true
  | _ => false
  end.

(** ** Calls in a row, and [Process.set_state] *)

(** [n] calls of [SYSTEM.allocate_bakery_id()] one after the other: the
    ids returned, in order, and the state left. *)
Fixpoint allocate_many (n : nat) (w : World) : list Z * World :=
  match n with
  | O => ([], w)
  | S n' =>
      let a := allocate_bakery_id w in
      let r := allocate_many n' (snd a) in
      (fst a :: fst r, snd r)
  end.

(** [Color.CYAN] and [Color.RESET] (lines 10 and 13): the escape character
    followed by the colour code. *)
Definition ESC : string := String (ascii_of_nat 27) EmptyString.
Definition CYAN : string := (ESC ++ "[96m")%string.
Definition RESET : string := (ESC ++ "[0m")%string.

(** [str(z)] of an integer, as an f-string formats it. *)
Definition str_of_int (z : Z) : string := NilZero.string_of_int (Z.to_int z).

(** [Process.__init__] (lines 105-112); the field [thread], set to [None]
    here and to the [Thread] object by [start_thread], is not
    represented. *)
Definition Process_init (pid burst_time priority : Z) (bakery_id : option Z)
  : Process :=
  mkProcess pid burst_time burst_time "NEW" priority bakery_id.

(** [self.state = new_state] *)
Definition with_state (self : Process) (new_state : string) : Process :=
  mkProcess (pid self) (burst_time self) (remaining self) new_state
            (priority self) (bakery_id self).

(** The line that [set_state] prints (line 127). *)
Definition transition_line (self : Process) (new_state : string) : string :=
  (CYAN ++ "[PCB] " ++ str_of_int (pid self) ++ ": " ++ state self
        ++ " -> " ++ new_state ++ RESET)%string.

(** How a call of a procedure that uses the lock ends. *)
Inductive call (A : Type) : Type :=
| Done (a : A)
| Raised
| Unfinished.
Arguments Done {A} a.
Arguments Raised {A}.
Arguments Unfinished {A}.

(** [Process.set_state] (lines 114-132), run alone, on the process, the
    registry and the lines printed so far.  The [finally] clause runs
    [bakery_unlock] once [bakery_lock] has returned; [print] does not
    raise, and the closing [time.sleep(3)] only delays. *)
Definition set_state (fuel : nat) (self : Process) (new_state : string)
           (b : Bakery) (out : list string)
  : call (Process * Bakery * list string) :=
  match bakery_id self with
  | Some i =>
      match bakery_lock fuel i b with
      | Returns _ b1 =>
          let out1 := out ++ [transition_line self new_state] in
          match bakery_unlock i b1 with
          | Py.Ok b2 => Done (with_state self new_state, b2, out1)
          | Py.IndexError => Raised
          end
      | Raises => Raised
      | Running => Unfinished
      end
  | None => Done (with_state self new_state, b, out)
  end.

(** * Properties *)

Example ensure_ex :
  ensure_bakery_size 2 bakery_init = mkBakery [false; false; false] [0; 0; 0].
Proof. reflexivity. Qed.

Example bakery_lock_ex :
  bakery_lock 20 1 bakery_init = Returns 0 (mkBakery [false; false] [0; 1]).
Proof. reflexivity. Qed.

(** A participant holding a flag that never clears keeps the caller
    asleep. *)
Example bakery_lock_spins :
  bakery_lock 50 1 (mkBakery [true; false] [0; 0]) = Running.
Proof. reflexivity. Qed.

Example bakery_lock_raises :
  bakery_lock 20 (-1) bakery_init = Raises.
Proof. reflexivity. Qed.

(** ** Python indexing *)

Section PyIndex.
Context {A : Type}.
Implicit Types (l : list A) (i : Z) (k : nat).

Lemma index_nonneg l i :
  0 <= i < Py.len l -> Py.index l i = Some (Z.to_nat i).
Proof.
  intros [H0 H1]. unfold Py.index.
  destruct (Z.leb_spec 0 i); [|lia].
  destruct (Z.ltb_spec i (Py.len l)); [|lia]. reflexivity.
Qed.

Lemma index_bound l i k : Py.index l i = Some k -> (k < length l)%nat.
Proof.
  unfold Py.index, Py.len.
  destruct (Z.leb_spec 0 i), (Z.ltb_spec i (Z.of_nat (length l))); simpl;
    try (intros [= <-]; lia);
    destruct (Z.leb_spec (- Z.of_nat (length l)) i), (Z.ltb_spec i 0); simpl;
    try discriminate; intros [= <-]; lia.
Qed.

Lemma index_length {B} l (l' : list B) i :
  length l = length l' -> Py.index l i = Py.index l' i.
Proof. unfold Py.index, Py.len. intros ->. reflexivity. Qed.

Lemma index_nonneg_inv l i k :
  0 <= i -> Py.index l i = Some k -> k = Z.to_nat i /\ i < Py.len l.
Proof.
  intros H0. unfold Py.index.
  destruct (Z.leb_spec 0 i); [|lia].
  destruct (Z.ltb_spec i (Py.len l)); simpl.
  - intros [= <-]. split; [reflexivity | assumption].
  - destruct (Z.ltb_spec i 0); [lia|]. rewrite andb_false_r. discriminate.
Qed.

Lemma setitem_length l i x l' :
  Py.setitem l i x = Py.Ok l' -> length l' = length l.
Proof.
  unfold Py.setitem. destruct (Py.index l i); [|discriminate].
  intros [= <-]. apply length_insert.
Qed.

Lemma getitem_nonneg l i :
  0 <= i -> Py.getitem l i = Py.of_option (l !! Z.to_nat i).
Proof.
  intros H0. unfold Py.getitem.
  destruct (Py.index l i) as [k|] eqn:E.
  - apply index_nonneg_inv in E as [-> _]; [reflexivity | assumption].
  - unfold Py.index in E.
    destruct (Z.leb_spec 0 i); [|lia].
    destruct (Z.ltb_spec i (Py.len l)); simpl in E; [discriminate|].
    rewrite lookup_ge_None_2; [reflexivity|]. unfold Py.len in *. lia.
Qed.

End PyIndex.

(** [max(l) if l else 0] bounds every element and, for a non-empty list,
    is one of them. *)
Lemma max_list_ge (l : list Z) x :
  x <= Py.max_list x l /\ Forall (fun y => y <= Py.max_list x l) l.
Proof.
  unfold Py.max_list. revert x.
  induction l as [|a l IH]; intros x; simpl.
  - split; [lia | constructor].
  - destruct (IH (Z.max x a)) as [H1 H2]. split; [lia|].
    constructor; [lia | assumption].
Qed.

Lemma max_list_in (l : list Z) x :
  Py.max_list x l = x \/ In (Py.max_list x l) l.
Proof.
  unfold Py.max_list. revert x.
  induction l as [|a l IH]; intros x; simpl.
  - left. reflexivity.
  - destruct (IH (Z.max x a)) as [H|H].
    + rewrite H. destruct (Z.max_spec x a) as [[_ ->]|[_ ->]]; auto.
    + auto.
Qed.

Lemma max_or_zero_upper (l : list Z) :
  Forall (fun y => y <= Py.max_or_zero l) l.
Proof.
  destruct l as [|x l]; simpl; [constructor|].
  destruct (max_list_ge l x). constructor; assumption.
Qed.

Lemma max_or_zero_in (l : list Z) :
  l <> [] -> In (Py.max_or_zero l) l.
Proof.
  destruct l as [|x l]; [congruence|]. intros _. simpl.
  destruct (max_list_in l x) as [->|H]; auto.
Qed.

(** ** Registry growth *)

Lemma ensure_loop_eq idx b :
  ensure_loop idx b =
  if Z_ge_dec idx (Py.len (choosing b)) then ensure_loop idx (append_slot b)
  else b.
Proof.
  rewrite ensure_loop_equation_1.
  destruct (Z_ge_dec idx (Py.len (choosing b))); reflexivity.
Qed.

Lemma ensure_closed_form idx b :
  ensure_bakery_size idx b =
  mkBakery (choosing b ++ replicate (missing idx b) false)
           (number b ++ replicate (missing idx b) 0).
Proof.
  unfold ensure_bakery_size.
  remember (missing idx b) as k eqn:Hk. revert b Hk.
  induction k as [|k IH]; intros b Hk; rewrite ensure_loop_eq;
    unfold missing in Hk; destruct (Z_ge_dec _ _) as [Hge|Hlt]; try lia.
  - simpl. rewrite !app_nil_r. destruct b; reflexivity.
  - rewrite IH.
    + simpl. rewrite <- !app_assoc. reflexivity.
    + unfold missing, append_slot, Py.len in *. simpl.
      rewrite length_app. simpl. lia.
Qed.

Lemma ensure_missing_zero idx b : missing idx (ensure_bakery_size idx b) = 0%nat.
Proof.
  rewrite ensure_closed_form. unfold missing, Py.len. simpl.
  rewrite length_app, length_replicate. unfold missing, Py.len. lia.
Qed.

Lemma ensure_lengths_agree idx b :
  lengths_agree b -> lengths_agree (ensure_bakery_size idx b).
Proof.
  unfold lengths_agree. intros H. rewrite ensure_closed_form. simpl.
  rewrite !length_app, !length_replicate. lia.
Qed.

(** C5: after [ensure_bakery_size(idx)] both lists are longer than [idx],
    every appended slot is [choosing = False], [number = 0], and every slot
    that existed before is as it was. *)
Theorem ensure_bakery_size_spec (idx : Z) (b : Bakery) :
  lengths_agree b ->
  let b' := ensure_bakery_size idx b in
  idx < Py.len (choosing b') /\ idx < Py.len (number b') /\
  choosing b' = choosing b ++ replicate (missing idx b) false /\
  number b' = number b ++ replicate (missing idx b) 0 /\
  (forall j, (j < length (choosing b))%nat ->
     choosing b' !! j = choosing b !! j /\ number b' !! j = number b !! j) /\
  (forall j, (length (choosing b) <= j < length (choosing b'))%nat ->
     choosing b' !! j = Some false /\ number b' !! j = Some 0).
Proof.
  intros Hlen b'. subst b'. unfold lengths_agree in Hlen.
  rewrite ensure_closed_form. simpl.
  repeat split.
  - unfold Py.len, missing, Py.len. rewrite length_app, length_replicate. lia.
  - unfold Py.len, missing, Py.len. rewrite length_app, length_replicate. lia.
  - apply lookup_app_l. assumption.
  - apply lookup_app_l. lia.
  - rewrite lookup_app_r by lia. apply lookup_replicate_2.
    rewrite length_app, length_replicate in H. lia.
  - rewrite lookup_app_r by lia. apply lookup_replicate_2.
    rewrite length_app, length_replicate in H. lia.
Qed.

Lemma ensure_bakery_size_spec_witness :
  lengths_agree (mkBakery [true] [7]) /\
  ensure_bakery_size 2 (mkBakery [true] [7]) =
    mkBakery [true; false; false] [7; 0; 0].
Proof.
  split; [reflexivity|].
  pose proof (ensure_bakery_size_spec 2 (mkBakery [true] [7]) eq_refl)
    as (_ & _ & Hc & Hn & _).
  destruct (ensure_bakery_size 2 (mkBakery [true] [7])) as [c n].
  simpl in Hc, Hn. rewrite Hc, Hn. reflexivity.
Defined.

(** C6: [ensure_bakery_size(k)] is idempotent: a second call changes
    nothing, so no slot differs between one call and two. *)
Theorem ensure_bakery_size_idempotent (k : Z) (b : Bakery) :
  ensure_bakery_size k (ensure_bakery_size k b) = ensure_bakery_size k b /\
  (forall j : nat,
     choosing (ensure_bakery_size k (ensure_bakery_size k b)) !! j =
       choosing (ensure_bakery_size k b) !! j /\
     number (ensure_bakery_size k (ensure_bakery_size k b)) !! j =
       number (ensure_bakery_size k b) !! j).
Proof.
  assert (E : ensure_bakery_size k (ensure_bakery_size k b)
              = ensure_bakery_size k b).
  { rewrite (ensure_closed_form k (ensure_bakery_size k b)).
    rewrite ensure_missing_zero. simpl. rewrite !app_nil_r.
    destruct (ensure_bakery_size k b); reflexivity. }
  split; [exact E|]. intros j. rewrite E. split; reflexivity.
Qed.

(** ** Release *)

(** C7: [bakery_unlock(i)] on an index that denotes slot [k] writes 0 to
    [number[k]] and touches nothing else: the other tickets, every choosing
    flag and both lengths stay. *)
Theorem bakery_unlock_frame (i : Z) (b : Bakery) (k : nat) :
  Py.index (number b) i = Some k ->
  bakery_unlock i b = Py.Ok (mkBakery (choosing b) (<[k := 0]> (number b))) /\
  (0 <= i -> k = Z.to_nat i) /\
  (<[k := 0]> (number b)) !! k = Some 0 /\
  (forall j : nat, j <> k -> (<[k := 0]> (number b)) !! j = number b !! j) /\
  length (<[k := 0]> (number b)) = length (number b).
Proof.
  intros Hk. unfold bakery_unlock, Py.setitem. rewrite Hk. simpl.
  repeat split.
  - intros H0. apply (index_nonneg_inv _ _ _ H0 Hk).
  - apply list_lookup_insert_eq. eapply index_bound; eassumption.
  - intros j Hj. apply list_lookup_insert_ne. congruence.
  - apply length_insert.
Qed.

Lemma bakery_unlock_frame_witness :
  bakery_unlock 1 (mkBakery [false; true; false] [3; 4; 5]) =
    Py.Ok (mkBakery [false; true; false] [3; 0; 5]).
Proof.
  exact (proj1 (bakery_unlock_frame 1 (mkBakery [false; true; false] [3; 4; 5])
                  1%nat eq_refl)).
Defined.

(** Outside the list [bakery_unlock] raises and leaves the lists alone. *)
Lemma bakery_unlock_out_of_range (i : Z) (b : Bakery) :
  Py.index (number b) i = None -> bakery_unlock i b = Py.IndexError.
Proof. intros H. unfold bakery_unlock, Py.setitem. rewrite H. reflexivity. Qed.

(** ** Reset and id allocation *)

(** C8: [System.reset] leaves both lists empty and the id counter at its
    initial value 0, so the next id handed out is 0. *)
Theorem reset_clears_registry_and_counter (w : World) :
  choosing (bakery (reset w)) = [] /\
  number (bakery (reset w)) = [] /\
  bakery_id_counter (SYSTEM (reset w)) = 0 /\
  bakery_id_counter (SYSTEM (reset w)) = bakery_id_counter (SYSTEM world_init) /\
  fst (allocate_bakery_id (reset w)) = 0.
Proof. repeat split. Qed.

(** C4, as stated, fails: the first allocation already appends slot 0. *)
Lemma allocate_bakery_id_changes_registry :
  ~ (bakery (snd (allocate_bakery_id world_init)) = bakery world_init) /\
  length (choosing (bakery (snd (allocate_bakery_id world_init)))) = 1%nat /\
  length (choosing (bakery world_init)) = 0%nat.
Proof. repeat split. discriminate. Qed.

(** C4, amended: [allocate_bakery_id] returns the counter, increments it and
    calls [ensure_bakery_size] on the id it returns: the existing slots are
    kept, default slots are appended until the lists are longer than the id,
    and the registry is as before exactly when it was already longer than
    the id. *)
Theorem allocate_bakery_id_ensures_slot (w : World) :
  let idx := fst (allocate_bakery_id w) in
  let w' := snd (allocate_bakery_id w) in
  idx = bakery_id_counter (SYSTEM w) /\
  bakery_id_counter (SYSTEM w') = idx + 1 /\
  bakery w' = ensure_bakery_size idx (bakery w) /\
  choosing (bakery w') =
    choosing (bakery w) ++ replicate (missing idx (bakery w)) false /\
  number (bakery w') =
    number (bakery w) ++ replicate (missing idx (bakery w)) 0 /\
  idx < Py.len (choosing (bakery w')) /\
  (bakery w' = bakery w <-> idx < Py.len (choosing (bakery w))).
Proof.
  simpl. rewrite ensure_closed_form. simpl.
  set (idx := bakery_id_counter (SYSTEM w)).
  set (b := bakery w).
  repeat split.
  - unfold Py.len, missing, Py.len. rewrite length_app, length_replicate. lia.
  - intros E. destruct b as [c n]. simpl in *. injection E as Ec _.
    apply (f_equal (@length bool)) in Ec.
    rewrite length_app, length_replicate in Ec.
    unfold missing, Py.len in *. simpl in *. lia.
  - intros H. unfold missing.
    replace (Z.to_nat (idx + 1 - Py.len (choosing b))) with 0%nat by lia.
    simpl. rewrite !app_nil_r. destruct b; reflexivity.
Qed.

(** ** The two lists keep one length *)

Lemma lock_step_lengths i p b p' b' :
  lock_step i p b = Py.Ok (p', b') ->
  lengths_agree b -> lengths_agree b'.
Proof.
  unfold lengths_agree.
  destruct p; simpl; unfold Py.bind;
    try (intros [= <- <-]; intros; assumption).
  - intros [= <- <-]. apply ensure_lengths_agree.
  - destruct (Py.setitem (choosing b) i true) as [ch|] eqn:E; [|discriminate].
    intros [= <- <-] H. simpl. rewrite (setitem_length _ _ _ _ E). exact H.
  - destruct (Py.setitem (number b) i (max_num + 1)) as [nm|] eqn:E;
      [|discriminate].
    intros [= <- <-] H. simpl. rewrite (setitem_length _ _ _ _ E). exact H.
  - destruct (Py.setitem (choosing b) i false) as [ch|] eqn:E; [|discriminate].
    intros [= <- <-] H. simpl. rewrite (setitem_length _ _ _ _ E). exact H.
  - destruct (Py.getitem (choosing b) j); [|discriminate].
    intros [= <- <-] H. exact H.
  - destruct (number_cond i j b); [|discriminate].
    intros [= <- <-] H. exact H.
Qed.

Lemma pc_returned_dec (p : pc) : {p = Returned} + {p <> Returned}.
Proof. destruct p; (left; reflexivity) || (right; discriminate). Defined.

Lemma lock_run_returned fuel i sleeps b :
  lock_run fuel i Returned sleeps b = Returns sleeps b.
Proof. destruct fuel; reflexivity. Qed.

Lemma lock_run_step fuel i p sleeps b :
  p <> Returned ->
  lock_run (S fuel) i p sleeps b =
  match lock_step i p b with
  | Py.Ok (p', b') =>
      lock_run fuel i p' (if is_sleep p then S sleeps else sleeps) b'
  | Py.IndexError => Raises
  end.
Proof. destruct p; try reflexivity. congruence. Qed.

Lemma lock_run_lengths fuel i p sleeps b sleeps' b' :
  lock_run fuel i p sleeps b = Returns sleeps' b' ->
  lengths_agree b -> lengths_agree b'.
Proof.
  revert p sleeps b.
  induction fuel as [|fuel IH]; intros p sleeps b;
    destruct (pc_returned_dec p) as [->|Hp].
  - rewrite lock_run_returned. intros [= _ <-]. auto.
  - destruct p; try discriminate. congruence.
  - rewrite lock_run_returned. intros [= _ <-]. auto.
  - rewrite lock_run_step by assumption.
    destruct (lock_step i p b) as [[p1 b1]|] eqn:E; [|discriminate].
    intros Hrun Hb. apply (IH _ _ _ Hrun).
    apply (lock_step_lengths _ _ _ _ _ E Hb).
Qed.

Lemma bakery_unlock_lengths i b b' :
  bakery_unlock i b = Py.Ok b' -> lengths_agree b -> lengths_agree b'.
Proof.
  unfold bakery_unlock, Py.bind, lengths_agree.
  destruct (Py.setitem (number b) i 0) as [nm|] eqn:E; [|discriminate].
  intros [= <-] H. simpl. rewrite (setitem_length _ _ _ _ E). exact H.
Qed.

Lemma thread_step_in_lock (i : Z) (x : call_site) (p : pc) (b : Bakery) :
  p <> Returned ->
  thread_step i (in_lock x p) b =
  (let! pb := lock_step i p b in Py.Ok (in_lock x (fst pb), snd pb)).
Proof. destruct x, p; try reflexivity; congruence. Qed.

Lemma thread_step_returned (i : Z) (x : call_site) (b : Bakery) :
  thread_step i (in_lock x Returned) b = Py.Ok (after_lock x, b).
Proof. destruct x; reflexivity. Qed.

(** The three kinds of step of a participant. *)
Lemma thread_step_inv i t b t' b' :
  thread_step i t b = Py.Ok (t', b') ->
  (calls t t' /\ b' = b) \/
  (exists x p p',
     p <> Returned /\ t = in_lock x p /\ t' = in_lock x p' /\
     lock_step i p b = Py.Ok (p', b')) \/
  (releases t t' /\ bakery_unlock i b = Py.Ok b').
Proof.
  assert (Hlock : forall x p,
            thread_step i (in_lock x p) b = Py.Ok (t', b') ->
            (calls (in_lock x p) t' /\ b' = b) \/
            (exists x0 p0 p',
               p0 <> Returned /\ in_lock x p = in_lock x0 p0 /\
               t' = in_lock x0 p' /\ lock_step i p0 b = Py.Ok (p', b'))).
  { intros x p H. destruct (pc_returned_dec p) as [->|Hp].
    - rewrite thread_step_returned in H. injection H as <- <-.
      left. split; [|reflexivity]. unfold calls. eauto 10.
    - rewrite thread_step_in_lock in H by exact Hp. unfold Py.bind in H.
      destruct (lock_step i p b) as [[p1 b1]|] eqn:El; [|discriminate].
      injection H as <- <-. right. exists x, p, p1. auto. }
  assert (Hrel : forall u,
            (let! b1 := bakery_unlock i b in Py.Ok (u, b1)) = Py.Ok (t', b') ->
            t' = u /\ bakery_unlock i b = Py.Ok b').
  { intros u. unfold Py.bind. destruct (bakery_unlock i b); [|discriminate].
    intros [= <- <-]. auto. }
  destruct t as [|p| | |p| |p| |]; intros H.
  - simpl in H. injection H as <- <-. left. unfold calls. tauto.
  - destruct (Hlock Plain p H) as [?|?]; auto.
  - apply Hrel in H as [-> H]. right. right. unfold releases. tauto.
  - simpl in H. injection H as <- <-. left. unfold calls. tauto.
  - destruct (Hlock Opening p H) as [?|?]; auto.
  - simpl in H. injection H as <- <-. left. unfold calls. tauto.
  - destruct (Hlock Nested p H) as [?|?]; auto.
  - apply Hrel in H as [-> H]. right. right. unfold releases. tauto.
  - apply Hrel in H as [-> H]. right. right. unfold releases. tauto.
Qed.

(** What a step of a participant does to the registry. *)
Lemma thread_step_effect i t b t' b' :
  thread_step i t b = Py.Ok (t', b') ->
  b' = b \/
  (exists p p', lock_step i p b = Py.Ok (p', b')) \/
  bakery_unlock i b = Py.Ok b'.
Proof.
  intros H.
  destruct (thread_step_inv _ _ _ _ _ H)
    as [(_ & ->)|[(x & p & p' & _ & _ & _ & Hl)|(_ & Hu)]]; eauto.
Qed.

Lemma thread_step_lengths i t b t' b' :
  thread_step i t b = Py.Ok (t', b') -> lengths_agree b -> lengths_agree b'.
Proof.
  intros H.
  destruct (thread_step_effect _ _ _ _ _ H) as [->|[(p & p' & Hl)|Hu]].
  - auto.
  - eapply lock_step_lengths; eassumption.
  - eapply bakery_unlock_lengths; eassumption.
Qed.

(** Under every interleaving the shared lists keep one length. *)
Lemma run_schedule_lengths sched c c' :
  run_schedule sched c = Py.Ok c' ->
  lengths_agree (shared c) -> lengths_agree (shared c').
Proof.
  revert c. induction sched as [|t sched IH]; intros c; simpl.
  - intros [= <-]. auto.
  - unfold Py.bind at 1. destruct (sys_step t c) as [c1|] eqn:E; [|discriminate].
    intros Hrun Hc. apply (IH _ Hrun).
    unfold sys_step in E. destruct (threads c !! t) as [[i th]|].
    + unfold Py.bind in E.
      destruct (thread_step i th (shared c)) as [[t1 b1]|] eqn:Et;
        [|discriminate].
      injection E as <-. simpl. eapply thread_step_lengths; eassumption.
    + injection E as <-. exact Hc.
Qed.

(** C10: [choosing] and [number] have the same length when the module is
    loaded, and [ensure_bakery_size], every statement and every completed
    call of [bakery_lock], [bakery_unlock], [System.reset] and
    [System.allocate_bakery_id] keep it so; hence Python accepts an index
    for one list exactly when it accepts it for the other. *)
Theorem lengths_agree_invariant :
  lengths_agree bakery_init /\
  (forall idx b, lengths_agree b -> lengths_agree (ensure_bakery_size idx b)) /\
  (forall i p b p' b',
     lengths_agree b -> lock_step i p b = Py.Ok (p', b') -> lengths_agree b') /\
  (forall fuel i b sleeps b',
     lengths_agree b -> bakery_lock fuel i b = Returns sleeps b' ->
     lengths_agree b') /\
  (forall i b b',
     lengths_agree b -> bakery_unlock i b = Py.Ok b' -> lengths_agree b') /\
  (forall w, lengths_agree (bakery (reset w))) /\
  (forall w, lengths_agree (bakery w) ->
     lengths_agree (bakery (snd (allocate_bakery_id w)))) /\
  (forall b i, lengths_agree b ->
     Py.index (choosing b) i = Py.index (number b) i).
Proof.
  split; [reflexivity|].
  split; [intros; apply ensure_lengths_agree; assumption|].
  split; [intros; eapply lock_step_lengths; eassumption|].
  split; [intros; eapply lock_run_lengths; eassumption|].
  split; [intros; eapply bakery_unlock_lengths; eassumption|].
  split; [reflexivity|].
  split; [intros; simpl; apply ensure_lengths_agree; assumption|].
  intros b i H. apply index_length. exact H.
Qed.

Lemma lengths_agree_invariant_witness :
  lengths_agree bakery_init /\
  bakery_lock 20 1 bakery_init = Returns 0 (mkBakery [false; false] [0; 1]) /\
  lengths_agree (mkBakery [false; false] [0; 1]) /\
  bakery_unlock 1 (mkBakery [false; false] [0; 1]) =
    Py.Ok (mkBakery [false; false] [0; 0]) /\
  lengths_agree (mkBakery [false; false] [0; 0]).
Proof.
  destruct lengths_agree_invariant as (H0 & _ & _ & Hlock & Hunlock & _).
  assert (H1 : lengths_agree (mkBakery [false; false] [0; 1])).
  { apply (Hlock 20%nat 1 bakery_init 0%nat _ H0). reflexivity. }
  split; [exact H0|]. split; [reflexivity|]. split; [exact H1|].
  split; [reflexivity|].
  apply (Hunlock 1 (mkBakery [false; false] [0; 1]) _ H1). reflexivity.
Defined.

(** ** Choosing a ticket *)

Lemma ensure_index_nonneg i b :
  0 <= i -> lengths_agree b ->
  let b1 := ensure_bakery_size i b in
  Py.index (choosing b1) i = Some (Z.to_nat i) /\
  Py.index (number b1) i = Some (Z.to_nat i) /\
  (Z.to_nat i < length (choosing b1))%nat /\
  (Z.to_nat i < length (number b1))%nat.
Proof.
  intros H0 Hlen.
  destruct (ensure_bakery_size_spec i b Hlen) as (Hc & Hn & _).
  cbv zeta. unfold Py.len in Hc, Hn.
  repeat split; try (apply index_nonneg; unfold Py.len); lia.
Qed.

Lemma ticket_phase_steps (i : Z) (b : Bakery) :
  0 <= i -> lengths_agree b ->
  let k := Z.to_nat i in
  let b1 := ensure_bakery_size i b in
  let b2 := mkBakery (<[k := true]> (choosing b1)) (number b1) in
  let m := Py.max_or_zero (number b2) in
  let b3 := mkBakery (choosing b2) (<[k := m + 1]> (number b2)) in
  lock_step i AtEnsure b = Py.Ok (AtSetChoosing, b1) /\
  lock_step i AtSetChoosing b1 = Py.Ok (AtReadMax, b2) /\
  lock_step i AtReadMax b2 = Py.Ok (AtSetNumber m, b2) /\
  lock_step i (AtSetNumber m) b2 = Py.Ok (AtClearChoosing, b3) /\
  lock_step i AtClearChoosing b3 = Py.Ok (AtFor, ticket_taken i b).
Proof.
  intros H0 Hlen k b1 b2 m b3.
  destruct (ensure_index_nonneg i b H0 Hlen) as (Ic & In_ & Lc & Ln).
  fold b1 in Ic, In_, Lc, Ln. fold k in Ic, In_, Lc, Ln.
  assert (Ic3 : Py.index (choosing b3) i = Some k).
  { rewrite <- Ic. apply index_length. simpl. apply length_insert. }
  split; [reflexivity|].
  split; [simpl; unfold Py.setitem; rewrite Ic; reflexivity|].
  split; [reflexivity|].
  split; [simpl; unfold Py.setitem; rewrite In_; reflexivity|].
  simpl; unfold Py.setitem; simpl in Ic3; rewrite Ic3; reflexivity.
Qed.

(** The five statements of lines 61-66, for any index that Python accepts
    once line 61 has run. *)
Lemma ticket_phase_at (i : Z) (b : Bakery) (k : nat) :
  lengths_agree b ->
  Py.index (choosing (ensure_bakery_size i b)) i = Some k ->
  let b1 := ensure_bakery_size i b in
  let b2 := mkBakery (<[k := true]> (choosing b1)) (number b1) in
  let m := Py.max_or_zero (number b2) in
  let b3 := mkBakery (choosing b2) (<[k := m + 1]> (number b2)) in
  let b4 := mkBakery (<[k := false]> (choosing b3)) (number b3) in
  lock_step i AtEnsure b = Py.Ok (AtSetChoosing, b1) /\
  lock_step i AtSetChoosing b1 = Py.Ok (AtReadMax, b2) /\
  lock_step i AtReadMax b2 = Py.Ok (AtSetNumber m, b2) /\
  lock_step i (AtSetNumber m) b2 = Py.Ok (AtClearChoosing, b3) /\
  lock_step i AtClearChoosing b3 = Py.Ok (AtFor, b4).
Proof.
  intros Hlen Ic b1 b2 m b3 b4. fold b1 in Ic.
  assert (Hlen1 : lengths_agree b1) by (apply ensure_lengths_agree; exact Hlen).
  assert (In_ : Py.index (number b1) i = Some k)
    by (rewrite <- Ic; symmetry; apply index_length; exact Hlen1).
  assert (Ic3 : Py.index (choosing b3) i = Some k).
  { rewrite <- Ic. apply index_length. simpl. apply length_insert. }
  split; [reflexivity|].
  split; [simpl; unfold Py.setitem; rewrite Ic; reflexivity|].
  split; [reflexivity|].
  split; [simpl; unfold Py.setitem; rewrite In_; reflexivity|].
  simpl; unfold Py.setitem; simpl in Ic3; rewrite Ic3; reflexivity.
Qed.

(** C2: every run of [bakery_lock(i)] starts, statement by statement, with
    line 61 (the registry is grown), line 62 ([choosing[i]] is set), line
    64 (the maximum [m] of [number], [0] for an empty list, is read), line
    65 ([number[i]] becomes [m + 1]) and line 66 ([choosing[i]] is
    cleared), in this order and with nothing in between: after one, two,
    three, four and five statements the run stands at these lines in the
    states [b1], [b2], [b2], [b3], [b4].  [choosing[i]] is true when the
    maximum is read and when the ticket is written, and false only after.
    When Python rejects the index [i] the run raises at line 62 and no
    ticket is computed. *)
Theorem ticket_chosen_between_flag_writes (i : Z) (b : Bakery) :
  lengths_agree b ->
  let b1 := ensure_bakery_size i b in
  match Py.index (choosing b1) i with
  | None => forall fuel, bakery_lock (2 + fuel) i b = Raises
  | Some k =>
      let b2 := mkBakery (<[k := true]> (choosing b1)) (number b1) in
      let m := Py.max_or_zero (number b2) in
      let b3 := mkBakery (choosing b2) (<[k := m + 1]> (number b2)) in
      let b4 := mkBakery (<[k := false]> (choosing b3)) (number b3) in
      lock_after 1 i AtEnsure b = Py.Ok (AtSetChoosing, b1) /\
      lock_after 2 i AtEnsure b = Py.Ok (AtReadMax, b2) /\
      lock_after 3 i AtEnsure b = Py.Ok (AtSetNumber m, b2) /\
      lock_after 4 i AtEnsure b = Py.Ok (AtClearChoosing, b3) /\
      lock_after 5 i AtEnsure b = Py.Ok (AtFor, b4) /\
      (forall fuel,
         bakery_lock (1 + fuel) i b = lock_run fuel i AtSetChoosing 0 b1 /\
         bakery_lock (2 + fuel) i b = lock_run fuel i AtReadMax 0 b2 /\
         bakery_lock (3 + fuel) i b = lock_run fuel i (AtSetNumber m) 0 b2 /\
         bakery_lock (4 + fuel) i b = lock_run fuel i AtClearChoosing 0 b3 /\
         bakery_lock (5 + fuel) i b = lock_run fuel i AtFor 0 b4) /\
      (0 <= i -> k = Z.to_nat i) /\
      choosing b2 !! k = Some true /\
      Forall (fun t => t <= m) (number b2) /\ In m (number b2) /\
      choosing b3 !! k = Some true /\ number b3 !! k = Some (1 + m) /\
      choosing b4 !! k = Some false /\ number b4 !! k = Some (1 + m)
  end.
Proof.
  intros Hlen b1.
  destruct (Py.index (choosing b1) i) as [k|] eqn:Ic.
  - pose proof (ticket_phase_at i b k Hlen Ic) as Hsteps.
    cbv zeta in Hsteps. fold b1 in Hsteps.
    destruct Hsteps as (S1 & S2 & S3 & S4 & S5).
    assert (Lc : (k < length (choosing b1))%nat)
      by (eapply index_bound; exact Ic).
    assert (Ln : (k < length (number b1))%nat).
    { pose proof (ensure_lengths_agree i b Hlen) as H. fold b1 in H.
      unfold lengths_agree in H. lia. }
    cbv zeta.
    split; [cbn [lock_after]; rewrite S1; reflexivity|].
    split; [cbn [lock_after]; rewrite S1; cbn [Py.bind fst snd]; rewrite S2;
            reflexivity|].
    split; [cbn [lock_after]; rewrite S1; cbn [Py.bind fst snd]; rewrite S2;
            cbn [Py.bind fst snd]; rewrite S3; reflexivity|].
    split; [cbn [lock_after]; rewrite S1; cbn [Py.bind fst snd]; rewrite S2;
            cbn [Py.bind fst snd]; rewrite S3; cbn [Py.bind fst snd];
            rewrite S4; reflexivity|].
    split; [cbn [lock_after]; rewrite S1; cbn [Py.bind fst snd]; rewrite S2;
            cbn [Py.bind fst snd]; rewrite S3; cbn [Py.bind fst snd];
            rewrite S4; cbn [Py.bind fst snd]; rewrite S5; reflexivity|].
    split.
    { intros fuel. unfold bakery_lock.
      change (5 + fuel)%nat with (S (4 + fuel)).
      change (4 + fuel)%nat with (S (3 + fuel)).
      change (3 + fuel)%nat with (S (2 + fuel)).
      change (2 + fuel)%nat with (S (1 + fuel)).
      change (1 + fuel)%nat with (S fuel).
      rewrite !(lock_run_step _ i AtEnsure) by discriminate. rewrite S1.
      cbv iota beta. simpl is_sleep. cbv iota.
      split; [reflexivity|].
      rewrite !(lock_run_step _ i AtSetChoosing) by discriminate. rewrite S2.
      cbv iota beta. simpl is_sleep. cbv iota.
      split; [reflexivity|].
      rewrite !(lock_run_step _ i AtReadMax) by discriminate. rewrite S3.
      cbv iota beta. simpl is_sleep. cbv iota.
      split; [reflexivity|].
      rewrite !(lock_run_step _ i (AtSetNumber _)) by discriminate. rewrite S4.
      cbv iota beta. simpl is_sleep. cbv iota.
      split; [reflexivity|].
      rewrite !(lock_run_step _ i AtClearChoosing) by discriminate. rewrite S5.
      reflexivity. }
    split; [intros H0; apply (index_nonneg_inv _ _ _ H0 Ic)|].
    split; [apply list_lookup_insert_eq; exact Lc|].
    split; [apply max_or_zero_upper|].
    split.
    { apply max_or_zero_in. simpl. intros E. rewrite E in Ln. simpl in Ln. lia. }
    split; [apply list_lookup_insert_eq; exact Lc|].
    split; [simpl; rewrite Z.add_comm; apply list_lookup_insert_eq; exact Ln|].
    split.
    { simpl. apply list_lookup_insert_eq. rewrite length_insert. exact Lc. }
    simpl. rewrite Z.add_comm. apply list_lookup_insert_eq. exact Ln.
  - intros fuel. unfold bakery_lock.
    change (2 + fuel)%nat with (S (S fuel)).
    rewrite lock_run_step by discriminate. simpl lock_step. cbv iota beta.
    rewrite lock_run_step by discriminate. simpl lock_step.
    unfold Py.setitem. fold b1. rewrite Ic. reflexivity.
Qed.

Lemma ticket_chosen_between_flag_writes_witness :
  lengths_agree (mkBakery [false] [4]) /\
  lock_after 4 1 AtEnsure (mkBakery [false] [4]) =
    Py.Ok (AtClearChoosing, mkBakery [false; true] [4; 5]) /\
  bakery_lock 8 1 (mkBakery [false] [4]) =
    lock_run 4 1 AtClearChoosing 0 (mkBakery [false; true] [4; 5]) /\
  lock_run 4 1 AtClearChoosing 0 (mkBakery [false; true] [4; 5]) =
    Returns 0 (mkBakery [false; false] [4; 5]) /\
  bakery_lock 2 (-3) (mkBakery [false] [4]) = Raises.
Proof.
  split; [reflexivity|].
  pose proof (ticket_chosen_between_flag_writes 1 (mkBakery [false] [4])
                eq_refl) as H1.
  pose proof (ticket_chosen_between_flag_writes (-3) (mkBakery [false] [4])
                eq_refl) as H2.
  cbv zeta in H1, H2.
  change (Py.index (choosing (ensure_bakery_size 1 (mkBakery [false] [4]))) 1)
    with (Some 1%nat) in H1.
  change (Py.index (choosing (ensure_bakery_size (-3) (mkBakery [false] [4])))
            (-3)) with (@None nat) in H2.
  cbv iota beta in H1, H2.
  destruct H1 as (_ & _ & _ & Ha & _ & Hrun & _).
  destruct (Hrun 4%nat) as (_ & _ & _ & H4 & _).
  split; [exact Ha|]. split; [exact H4|]. split; [reflexivity|].
  exact (H2 0%nat).
Defined.

(** ** The flag under interleaving *)

Lemma setitem_nonneg {A} (l l' : list A) (i : Z) (x : A) :
  0 <= i -> Py.setitem l i x = Py.Ok l' ->
  l' = <[Z.to_nat i := x]> l /\ (Z.to_nat i < length l)%nat.
Proof.
  intros H0. unfold Py.setitem.
  destruct (Py.index l i) as [k|] eqn:E; [|discriminate].
  intros [= <-]. pose proof (index_bound _ _ _ E).
  apply index_nonneg_inv in E as [-> _]; [|assumption]. auto.
Qed.

(** A statement of participant [i] leaves the flags of the others alone. *)
Lemma lock_step_choosing_other i p b p' b' (k : nat) (c : bool) :
  0 <= i -> lock_step i p b = Py.Ok (p', b') ->
  k <> Z.to_nat i ->
  choosing b !! k = Some c -> choosing b' !! k = Some c.
Proof.
  intros H0 Hstep Hk Hc.
  destruct p as [| | |max_num| | |n j|n j|n j|n j|]; simpl in Hstep; unfold Py.bind in Hstep;
    try (injection Hstep as <- <-; exact Hc).
  - injection Hstep as <- <-. rewrite ensure_closed_form. simpl.
    apply lookup_app_l_Some. exact Hc.
  - destruct (Py.setitem (choosing b) i true) as [ch|] eqn:E; [|discriminate].
    injection Hstep as <- <-. simpl.
    apply setitem_nonneg in E as [-> _]; [|assumption].
    rewrite list_lookup_insert_ne by congruence. exact Hc.
  - destruct (Py.setitem (number b) i (max_num + 1)); [|discriminate].
    injection Hstep as <- <-. exact Hc.
  - destruct (Py.setitem (choosing b) i false) as [ch|] eqn:E; [|discriminate].
    injection Hstep as <- <-. simpl.
    apply setitem_nonneg in E as [-> _]; [|assumption].
    rewrite list_lookup_insert_ne by congruence. exact Hc.
  - destruct (Py.getitem (choosing b) j); [|discriminate].
    injection Hstep as <- <-. exact Hc.
  - destruct (number_cond i j b); [|discriminate].
    injection Hstep as <- <-. exact Hc.
Qed.

Lemma for_next_window n j : in_choosing_window (for_next n j) = false.
Proof. unfold for_next. destruct (j <? n); reflexivity. Qed.

(** Participant [i] enters the window by setting its flag and does not
    clear it before it leaves. *)
Lemma lock_step_window i p b p' b' :
  0 <= i -> lock_step i p b = Py.Ok (p', b') ->
  (in_choosing_window p = true -> choosing b !! Z.to_nat i = Some true) ->
  in_choosing_window p' = true ->
  choosing b' !! Z.to_nat i = Some true.
Proof.
  intros H0 Hstep Hin Hp'.
  destruct p as [| | |max_num| | |n j|n j|n j|n j|]; simpl in Hstep; unfold Py.bind in Hstep;
    try (injection Hstep as <- <-; discriminate Hp').
  - destruct (Py.setitem (choosing b) i true) as [ch|] eqn:E; [|discriminate].
    injection Hstep as <- <-. simpl.
    apply setitem_nonneg in E as [-> Hlt]; [|assumption].
    apply list_lookup_insert_eq. exact Hlt.
  - injection Hstep as <- <-. apply Hin. reflexivity.
  - destruct (Py.setitem (number b) i (max_num + 1)); [|discriminate].
    injection Hstep as <- <-. apply Hin. reflexivity.
  - destruct (Py.setitem (choosing b) i false); [|discriminate].
    injection Hstep as <- <-. discriminate Hp'.
  - injection Hstep as <- <-. rewrite for_next_window in Hp'. discriminate Hp'.
  - destruct (Py.getitem (choosing b) j) as [[|]|]; try discriminate;
      injection Hstep as <- <-; try discriminate Hp'.
    rewrite for_next_window in Hp'. discriminate Hp'.
  - destruct (number_cond i j b) as [[|]|]; try discriminate;
      injection Hstep as <- <-; discriminate Hp'.
Qed.

Lemma thread_step_choosing_other i t b t' b' (k : nat) (c : bool) :
  0 <= i -> thread_step i t b = Py.Ok (t', b') ->
  k <> Z.to_nat i ->
  choosing b !! k = Some c -> choosing b' !! k = Some c.
Proof.
  intros H0 Hstep Hk Hc.
  destruct (thread_step_effect _ _ _ _ _ Hstep) as [->|[(p & p' & H)|H]].
  - exact Hc.
  - eapply lock_step_choosing_other; eassumption.
  - unfold bakery_unlock, Py.bind in H.
    destruct (Py.setitem (number b) i 0); [|discriminate].
    injection H as <-. exact Hc.
Qed.

Lemma thread_window_in_lock (x : call_site) (p : pc) :
  thread_window (in_lock x p) = in_choosing_window p.
Proof. destruct x; reflexivity. Qed.

Lemma thread_window_calls (th th' : thread) :
  calls th th' -> thread_window th = false /\ thread_window th' = false.
Proof.
  intros [(-> & ->)|[(-> & ->)|[(-> & ->)|(x & -> & ->)]]];
    try (split; reflexivity).
  destruct x; split; reflexivity.
Qed.

Lemma thread_window_releases (th th' : thread) :
  releases th th' -> thread_window th = false /\ thread_window th' = false.
Proof.
  intros [(-> & ->)|[(-> & ->)|(-> & ->)]]; split; reflexivity.
Qed.

Lemma sys_step_ids t c c' :
  sys_step t c = Py.Ok c' -> fst <$> threads c' = fst <$> threads c.
Proof.
  unfold sys_step. destruct (threads c !! t) as [[i th]|] eqn:E.
  - unfold Py.bind. destruct (thread_step i th (shared c)) as [[t1 b1]|];
      [|discriminate].
    intros [= <-]. simpl. rewrite list_fmap_insert. simpl.
    apply list_insert_id. rewrite list_lookup_fmap, E. reflexivity.
  - intros [= <-]. reflexivity.
Qed.

Lemma sys_step_ids_ok t c c' :
  sys_step t c = Py.Ok c' -> ids_ok c -> ids_ok c'.
Proof.
  intros Hstep [Hnd Hpos]. split.
  - rewrite (sys_step_ids _ _ _ Hstep). exact Hnd.
  - intros t2 i2 th2 H2.
    assert (Hi : (fst <$> threads c') !! t2 = Some i2)
      by (rewrite list_lookup_fmap, H2; reflexivity).
    rewrite (sys_step_ids _ _ _ Hstep), list_lookup_fmap in Hi.
    destruct (threads c !! t2) as [[i3 th3]|] eqn:E3; [|discriminate].
    injection Hi as <-. eapply Hpos; eassumption.
Qed.

Lemma sys_step_flag_held t c c' :
  sys_step t c = Py.Ok c' -> ids_ok c -> flag_held c -> flag_held c'.
Proof.
  intros Hstep [Hnd Hpos] Hinv. unfold sys_step in Hstep.
  destruct (threads c !! t) as [[i th]|] eqn:Et;
    [|injection Hstep as <-; exact Hinv].
  unfold Py.bind in Hstep.
  destruct (thread_step i th (shared c)) as [[th' b']|] eqn:Es; [|discriminate].
  injection Hstep as <-. simpl.
  pose proof (Hpos _ _ _ Et) as Hi.
  intros t2 i2 th2. simpl. intros H2 Hw.
  apply list_lookup_insert_Some in H2 as [(<- & E & _)|(Hne & H2)].
  - injection E as <- ->.
    destruct (thread_step_inv _ _ _ _ _ Es)
      as [(Hc & _)|[(x & p & p' & _ & -> & -> & H)|(Hr & _)]].
    + apply thread_window_calls in Hc as [_ Hc]. congruence.
    + rewrite thread_window_in_lock in Hw.
      eapply lock_step_window; try eassumption.
      intros Hp. apply (Hinv t i (in_lock x p) Et).
      rewrite thread_window_in_lock. exact Hp.
    + apply thread_window_releases in Hr as [_ Hr]. congruence.
  - pose proof (Hpos _ _ _ H2) as Hi2.
    apply (thread_step_choosing_other i th (shared c) th' b' _ _ Hi Es).
    + intros Ek. apply Hne.
      apply (NoDup_lookup _ _ _ i Hnd).
      * rewrite list_lookup_fmap, Et. reflexivity.
      * rewrite list_lookup_fmap, H2. simpl. f_equal. lia.
    + eapply Hinv; eassumption.
Qed.

(** Under every interleaving, a participant that has executed line 62 and
    not yet line 66 has [choosing[i]] true: the ticket is read and written
    inside the window also when other participants run in between. *)
Lemma run_schedule_flag_held sched c c' :
  run_schedule sched c = Py.Ok c' ->
  ids_ok c -> flag_held c -> ids_ok c' /\ flag_held c'.
Proof.
  revert c. induction sched as [|t sched IH]; intros c; simpl.
  - intros [= <-]. auto.
  - unfold Py.bind at 1. destruct (sys_step t c) as [c1|] eqn:E; [|discriminate].
    intros Hrun Hids Hinv. apply (IH _ Hrun).
    + eapply sys_step_ids_ok; eassumption.
    + eapply sys_step_flag_held; eassumption.
Qed.

(** ** The wait loop *)

(** With no flag set the loop of lines 68-75 runs through [range(n)]
    without a single [sleep], whatever the tickets are: line 74 is never
    reached. *)
Lemma wait_loop_no_choosing (i : Z) (b : Bakery) (n : Z) :
  none_choosing b -> n <= Py.len (choosing b) ->
  forall (d : nat) (j : Z) (fuel sleeps : nat),
    0 <= j -> n - j <= Z.of_nat d -> (d <= fuel)%nat ->
    lock_run fuel i (for_next n j) sleeps b = Returns sleeps b.
Proof.
  intros Hnone Hn.
  induction d as [|d IH]; intros j fuel sleeps Hj Hd Hfuel; unfold for_next;
    destruct (Z.ltb_spec j n) as [Hlt|Hge];
    try (apply lock_run_returned); try lia.
  destruct fuel as [|fuel]; [lia|].
  rewrite lock_run_step by discriminate. simpl.
  rewrite getitem_nonneg by assumption.
  destruct (choosing b !! Z.to_nat j) as [c|] eqn:E.
  - rewrite (Hnone _ _ E). simpl. apply IH; lia.
  - apply lookup_ge_None_1 in E. unfold Py.len in Hn. lia.
Qed.

Lemma none_choosing_replicate (m : nat) (nm : list Z) :
  none_choosing (mkBakery (replicate m false) nm).
Proof.
  intros k c H. simpl in H. apply lookup_replicate_1 in H as [-> _].
  reflexivity.
Qed.

Lemma insert_replicate_same {A} (m k : nat) (x : A) :
  <[k := x]> (replicate m x) = replicate m x.
Proof.
  revert k. induction m as [|m IH]; intros [|k]; simpl; try reflexivity.
  f_equal. apply IH.
Qed.

Lemma max_list_bounded (l : list Z) (x y : Z) :
  x <= y -> Forall (fun t => t <= y) l -> Py.max_list x l <= y.
Proof.
  unfold Py.max_list. revert x.
  induction l as [|a l IH]; intros x Hx Hl; simpl; [assumption|].
  inversion Hl; subst. apply IH; [lia | assumption].
Qed.

Lemma max_or_zero_replicate (m : nat) : Py.max_or_zero (replicate m 0) = 0.
Proof.
  destruct m as [|m]; simpl; [reflexivity|].
  apply Z.le_antisymm.
  - apply max_list_bounded; [lia|]. apply Forall_replicate. lia.
  - apply max_list_ge.
Qed.

(** Up to line 68 a call of [bakery_lock(i)] takes six statements and no
    [sleep]. *)
Lemma lock_run_prologue (i : Z) (b : Bakery) (fuel : nat) :
  0 <= i -> lengths_agree b ->
  lock_run (6 + fuel) i AtEnsure 0 b =
  lock_run fuel i (for_next (Py.len (number (ticket_taken i b))) 0) 0
           (ticket_taken i b).
Proof.
  intros H0 Hlen.
  destruct (ticket_phase_steps i b H0 Hlen) as (S1 & S2 & S3 & S4 & S5).
  change (6 + fuel)%nat with (S (S (S (S (S (S fuel)))))).
  rewrite lock_run_step, S1 by discriminate.
  rewrite lock_run_step, S2 by discriminate.
  rewrite lock_run_step, S3 by discriminate.
  rewrite lock_run_step, S4 by discriminate.
  rewrite lock_run_step, S5 by discriminate.
  rewrite lock_run_step by discriminate. reflexivity.
Qed.

Lemma ticket_taken_none_choosing (i : Z) (b : Bakery) :
  none_choosing b -> none_choosing (ticket_taken i b).
Proof.
  intros Hnone k c. unfold ticket_taken. simpl.
  rewrite ensure_closed_form. simpl.
  set (l := choosing b ++ replicate (missing i b) false).
  destruct (decide (Z.to_nat i = k)) as [<-|Hne].
  - destruct (decide (Z.to_nat i < length l)%nat) as [Hlt|Hge].
    + rewrite list_lookup_insert_eq by (rewrite length_insert; exact Hlt).
      congruence.
    + rewrite !list_insert_ge by (rewrite ?length_insert; lia).
      rewrite lookup_ge_None_2 by lia. discriminate.
  - rewrite !list_lookup_insert_ne by assumption.
    unfold l. intros H. apply lookup_app_Some in H as [H|[_ H]].
    + eapply Hnone; eassumption.
    + apply lookup_replicate_1 in H as [-> _]. reflexivity.
Qed.

(** While no flag is set a call of [bakery_lock] returns without one
    [sleep], whatever tickets the other participants hold. *)
Lemma bakery_lock_no_choosing (i : Z) (b : Bakery) (fuel : nat) :
  0 <= i -> lengths_agree b -> none_choosing b ->
  (length (number (ticket_taken i b)) + 6 <= fuel)%nat ->
  bakery_lock fuel i b = Returns 0 (ticket_taken i b).
Proof.
  intros H0 Hlen Hnone Hfuel. unfold bakery_lock.
  replace fuel with (6 + (fuel - 6))%nat by lia.
  rewrite lock_run_prologue by assumption.
  apply (wait_loop_no_choosing i _ _ (ticket_taken_none_choosing i b Hnone))
    with (d := length (number (ticket_taken i b))).
  - unfold ticket_taken, Py.len. simpl. rewrite !length_insert.
    apply ensure_lengths_agree with (idx := i) in Hlen.
    unfold lengths_agree in Hlen. lia.
  - lia.
  - unfold Py.len. lia.
  - lia.
Qed.

(** C9: with every slot still at its default ([n] of them, none when the
    registry is fresh), [bakery_lock(5)] returns: the registry then has
    slots 0..5 (and the [n] it had, if more), ticket 1 sits in slot 5, every
    other slot is untouched, and [time.sleep] was never called. *)
Theorem lock_id_5_alone (n fuel : nat) :
  (Nat.max n 6 + 6 <= fuel)%nat ->
  bakery_lock fuel 5 (mkBakery (replicate n false) (replicate n 0)) =
  Returns 0 (mkBakery (replicate (Nat.max n 6) false)
                      (<[5%nat := 1]> (replicate (Nat.max n 6) 0))).
Proof.
  intros Hfuel. set (m := Nat.max n 6) in *.
  set (b := mkBakery (replicate n false) (replicate n 0)).
  assert (E1 : ensure_bakery_size 5 b
               = mkBakery (replicate m false) (replicate m 0)).
  { rewrite ensure_closed_form. unfold missing, Py.len. simpl.
    rewrite length_replicate. rewrite <- !replicate_add.
    replace (n + Z.to_nat (5 + 1 - Z.of_nat n))%nat with m by (unfold m; lia).
    reflexivity. }
  assert (E4 : ticket_taken 5 b
               = mkBakery (replicate m false) (<[5%nat := 1]> (replicate m 0))).
  { unfold ticket_taken. rewrite E1. simpl choosing. simpl number.
    rewrite max_or_zero_replicate.
    change (Z.to_nat 5) with 5%nat.
    rewrite list_insert_insert_eq, insert_replicate_same. reflexivity. }
  rewrite <- E4. apply bakery_lock_no_choosing.
  - lia.
  - unfold lengths_agree, b. simpl. rewrite !length_replicate. reflexivity.
  - apply none_choosing_replicate.
  - rewrite E4. simpl. rewrite length_insert, length_replicate. exact Hfuel.
Qed.

Lemma lock_id_5_alone_witness :
  (Nat.max 0 6 + 6 <= 12)%nat /\
  bakery_lock 12 5 bakery_init =
  Returns 0 (mkBakery [false; false; false; false; false; false]
                      [0; 0; 0; 0; 0; 1]).
Proof.
  split; [simpl; lia|].
  apply (lock_id_5_alone 0 12). simpl. lia.
Defined.

(** ** The nested wait and mutual exclusion *)

(** C1: participant 0 holds ticket 1 and participant 1 calls
    [bakery_lock(1)].  The call takes ticket 2 and returns without a
    [sleep]: at [j = 0] the flag [choosing[0]] is false, so line 70 sends
    control to [j = 1] and the test of line 74 is skipped, although it
    holds there ([number[0] = 1] is non-zero and [(1, 0)] is before
    [(2, 1)]). *)
Theorem ticket_wait_skipped :
  let b := mkBakery [false; false] [1; 0] in
  let b' := mkBakery [false; false] [1; 2] in
  lock_run 6 1 AtEnsure 0 b = lock_run 0 1 (AtWhileChoosing 2 0) 0 b' /\
  lock_step 1 (AtWhileChoosing 2 0) b' = Py.Ok (AtWhileChoosing 2 1, b') /\
  number_cond 1 0 b' = Py.Ok true /\
  bakery_lock 8 1 b = Returns 0 b'.
Proof. repeat split. Qed.

(** C3: started from the state the allocator leaves for two participants,
    thread 0 runs [bakery_lock(0)] to its return and then thread 1 runs
    [bakery_lock(1)] to its return; nobody has called [bakery_unlock], and
    both are in their critical sections. *)
Theorem mutual_exclusion_violated :
  mutual_exclusion two_participants /\
  run_schedule (replicate 10 0%nat ++ replicate 10 1%nat) two_participants =
    Py.Ok (mkConfig (mkBakery [false; false] [1; 2])
                    [(0, Critical); (1, Critical)]) /\
  ~ mutual_exclusion (mkConfig (mkBakery [false; false] [1; 2])
                               [(0, Critical); (1, Critical)]).
Proof.
  split; [unfold mutual_exclusion; simpl; lia|].
  split; [reflexivity|].
  unfold mutual_exclusion. simpl. lia.
Qed.

(** * Further properties of the lock run alone *)

(** ** No statement raises once the index is in range *)

Lemma index_in_range {A} (l : list A) (i : Z) :
  - Py.len l <= i < Py.len l -> exists k, Py.index l i = Some k.
Proof.
  intros [Hlo Hhi]. unfold Py.index.
  destruct (Z.leb_spec 0 i); destruct (Z.ltb_spec i (Py.len l));
    simpl; try lia; eauto.
  destruct (Z.leb_spec (- Py.len l) i); destruct (Z.ltb_spec i 0);
    simpl; try lia; eauto.
Qed.

Lemma index_out_of_range {A} (l : list A) (i : Z) :
  i < - Py.len l -> Py.index l i = None.
Proof.
  intros H. unfold Py.index. unfold Py.len in *.
  destruct (Z.leb_spec 0 i); [lia|]. simpl.
  destruct (Z.leb_spec (- Z.of_nat (length l)) i); [lia|]. reflexivity.
Qed.

Lemma getitem_in_range {A} (l : list A) (i : Z) :
  - Py.len l <= i < Py.len l -> exists x, Py.getitem l i = Py.Ok x.
Proof.
  intros H. destruct (index_in_range l i H) as [k Hk].
  unfold Py.getitem. rewrite Hk.
  destruct (lookup_lt_is_Some_2 l k (index_bound _ _ _ Hk)) as [x ->].
  eexists. reflexivity.
Qed.

Lemma setitem_in_range {A} (l : list A) (i : Z) (x : A) :
  - Py.len l <= i < Py.len l ->
  exists l', Py.setitem l i x = Py.Ok l' /\ length l' = length l.
Proof.
  intros H. destruct (index_in_range l i H) as [k Hk].
  unfold Py.setitem. rewrite Hk. eexists. split; [reflexivity|].
  apply length_insert.
Qed.

Lemma for_next_loop_ok (n j : Z) (b : Bakery) :
  0 <= j -> n <= Py.len (number b) -> loop_ok (for_next n j) b.
Proof.
  intros Hj Hn. unfold for_next, loop_ok.
  destruct (Z.ltb_spec j n); simpl; [lia | exact I].
Qed.

Lemma number_cond_in_range (i j : Z) (b : Bakery) :
  - Py.len (number b) <= i < Py.len (number b) ->
  0 <= j < Py.len (number b) ->
  exists c, number_cond i j b = Py.Ok c.
Proof.
  intros Hi Hj. unfold number_cond.
  destruct (getitem_in_range (number b) j ltac:(lia)) as [nj ->].
  destruct (getitem_in_range (number b) i Hi) as [ni ->]. simpl.
  destruct (nj =? 0); eauto.
Qed.

Lemma lock_step_ready (i : Z) (p : pc) (b : Bakery) :
  step_ready i p b ->
  exists p' b', lock_step i p b = Py.Ok (p', b') /\ step_ready i p' b'.
Proof.
  intros (Hlen & Hlo & Hhi & Hloop).
  assert (Hlen' := Hlen). unfold lengths_agree in Hlen'.
  assert (Hcn : Py.len (choosing b) = Py.len (number b))
    by (unfold Py.len; lia).
  destruct p as [| | |m| | |n j|n j|n j|n j|]; simpl.
  - exists AtSetChoosing, (ensure_bakery_size i b). split; [reflexivity|].
    destruct (ensure_bakery_size_spec i b Hlen) as (_ & Hn & _ & En & _).
    split; [apply ensure_lengths_agree; exact Hlen|].
    split; [|split; [intros _; exact Hn | exact I]].
    rewrite En. unfold Py.len in *. rewrite length_app. lia.
  - destruct (setitem_in_range (choosing b) i true) as (ch & -> & Hch).
    { rewrite Hcn. split; [lia | apply Hhi; discriminate]. }
    simpl. eexists _, _. split; [reflexivity|].
    unfold step_ready, lengths_agree. simpl.
    split; [lia|]. split; [exact Hlo|]. split; [|exact I].
    intros _. apply Hhi. discriminate.
  - eexists _, _. split; [reflexivity|].
    unfold step_ready. split; [exact Hlen|]. split; [exact Hlo|].
    split; [|exact I]. intros _. apply Hhi. discriminate.
  - destruct (setitem_in_range (number b) i (m + 1)) as (nm & -> & Hnm).
    { split; [lia | apply Hhi; discriminate]. }
    simpl. eexists _, _. split; [reflexivity|].
    unfold step_ready, lengths_agree, Py.len in *. simpl. rewrite Hnm.
    split; [lia|]. split; [exact Hlo|]. split; [|exact I].
    intros _. apply Hhi. discriminate.
  - destruct (setitem_in_range (choosing b) i false) as (ch & -> & Hch).
    { rewrite Hcn. split; [lia | apply Hhi; discriminate]. }
    simpl. eexists _, _. split; [reflexivity|].
    unfold step_ready, lengths_agree. simpl.
    split; [lia|]. split; [exact Hlo|]. split; [|exact I].
    intros _. apply Hhi. discriminate.
  - eexists _, _. split; [reflexivity|].
    split; [exact Hlen|]. split; [exact Hlo|].
    split; [intros _; apply Hhi; discriminate|].
    apply for_next_loop_ok; lia.
  - unfold loop_ok in Hloop. simpl in Hloop.
    destruct (getitem_in_range (choosing b) j) as [c ->]; [lia|]. simpl.
    eexists _, _. split; [reflexivity|].
    split; [exact Hlen|]. split; [exact Hlo|].
    split; [intros _; apply Hhi; discriminate|].
    destruct c; [exact Hloop|]. apply for_next_loop_ok; lia.
  - eexists _, _. split; [reflexivity|].
    split; [exact Hlen|]. split; [exact Hlo|].
    split; [intros _; apply Hhi; discriminate | exact Hloop].
  - unfold loop_ok in Hloop. simpl in Hloop.
    destruct (number_cond_in_range i j b) as [c ->];
      [split; [lia | apply Hhi; discriminate] | lia |].
    simpl. eexists _, _. split; [reflexivity|].
    split; [exact Hlen|]. split; [exact Hlo|].
    split; [intros _; apply Hhi; discriminate|].
    destruct c; exact Hloop.
  - eexists _, _. split; [reflexivity|].
    split; [exact Hlen|]. split; [exact Hlo|].
    split; [intros _; apply Hhi; discriminate | exact Hloop].
  - eexists _, _. split; [reflexivity|].
    split; [exact Hlen|]. split; [exact Hlo|].
    split; [intros _; apply Hhi; discriminate | exact I].
Qed.

Lemma lock_run_zero (i : Z) (p : pc) (sleeps : nat) (b : Bakery) :
  p <> Returned -> lock_run 0 i p sleeps b = Running.
Proof. destruct p; try reflexivity. congruence. Qed.

Lemma lock_run_ready_no_raise (fuel : nat) (i : Z) (p : pc) (sleeps : nat)
      (b : Bakery) :
  step_ready i p b -> lock_run fuel i p sleeps b <> Raises.
Proof.
  revert p sleeps b. induction fuel as [|fuel IH]; intros p sleeps b Hr;
    destruct (pc_returned_dec p) as [->|Hp];
    rewrite ?lock_run_returned, ?lock_run_zero by assumption;
    try discriminate.
  rewrite lock_run_step by assumption.
  destruct (lock_step_ready i p b Hr) as (p' & b' & -> & Hr').
  apply IH. exact Hr'.
Qed.

(** X3: run alone from a registry whose lists have one length,
    [bakery_lock(i)] raises [IndexError] exactly when [i] is below
    [-len(choosing)]: a non-negative id gets its slot from line 61, a
    negative one is accepted by Python as an index from the end, and the
    loop never leaves the lists. *)
Theorem bakery_lock_raises_iff (i : Z) (b : Bakery) :
  lengths_agree b ->
  ((exists fuel, bakery_lock fuel i b = Raises) <-> i < - Py.len (choosing b)).
Proof.
  intros Hlen. assert (Hlen' := Hlen). unfold lengths_agree in Hlen'.
  split.
  - intros [fuel Hf].
    destruct (Z.lt_ge_cases i (- Py.len (choosing b))) as [H|H]; [exact H|].
    exfalso. revert Hf. apply lock_run_ready_no_raise.
    split; [exact Hlen|]. unfold Py.len in *.
    split; [lia|]. split; [congruence | exact I].
  - intros H. exists 2%nat. unfold bakery_lock.
    rewrite lock_run_step by discriminate. simpl lock_step. cbv iota beta.
    rewrite lock_run_step by discriminate. simpl lock_step.
    unfold Py.setitem. rewrite index_out_of_range; [reflexivity|].
    rewrite ensure_closed_form. simpl. unfold missing.
    replace (Z.to_nat (i + 1 - Py.len (choosing b))) with 0%nat
      by (unfold Py.len in *; lia).
    simpl. rewrite app_nil_r. exact H.
Qed.

Lemma bakery_lock_raises_iff_witness :
  lengths_agree bakery_init /\ bakery_lock 2 (-1) bakery_init = Raises /\
  -1 < - Py.len (choosing bakery_init).
Proof.
  split; [reflexivity|]. split; [reflexivity|].
  apply (bakery_lock_raises_iff (-1) bakery_init eq_refl).
  exists 2%nat. reflexivity.
Defined.

(** ** A flag that stays set *)

Lemma spinning_step (k : nat) (i : Z) (p : pc) (b : Bakery) :
  0 <= i -> spinning k i p b ->
  exists p' b', lock_step i p b = Py.Ok (p', b') /\ spinning k i p' b'.
Proof.
  intros H0 (Hr & Hp & Hk & Hne & Hl).
  destruct (lock_step_ready i p b Hr) as (p' & b' & Hs & Hr').
  exists p', b'. split; [exact Hs|]. split; [exact Hr'|].
  assert (Hk' : choosing b' !! k = Some true)
    by (eapply lock_step_choosing_other; eassumption).
  assert (Hklen : Z.of_nat k < Py.len (number b)).
  { destruct Hr as (Hlen & _). unfold lengths_agree in Hlen.
    apply lookup_lt_Some in Hk. unfold Py.len. lia. }
  cut (p' <> Returned /\
       match loop_index p' with
       | Some (n, j) => j <= Z.of_nat k < n
       | None => True
       end).
  { intros [? ?]. auto. }
  destruct Hr as (_ & _ & _ & Hloop). unfold loop_ok in Hloop.
  destruct p as [| | |m| | |n j|n j|n j|n j|]; simpl in Hs, Hl, Hloop;
    unfold Py.bind in Hs.
  - injection Hs as <- <-. split; [discriminate | exact I].
  - destruct (Py.setitem (choosing b) i true); [|discriminate].
    injection Hs as <- <-. split; [discriminate | exact I].
  - injection Hs as <- <-. split; [discriminate | exact I].
  - destruct (Py.setitem (number b) i (m + 1)); [|discriminate].
    injection Hs as <- <-. split; [discriminate | exact I].
  - destruct (Py.setitem (choosing b) i false); [|discriminate].
    injection Hs as <- <-. split; [discriminate | exact I].
  - injection Hs as <- <-. unfold for_next.
    destruct (Z.ltb_spec 0 (Py.len (number b))); [|lia].
    simpl. split; [discriminate | lia].
  - rewrite getitem_nonneg in Hs by lia.
    destruct (choosing b !! Z.to_nat j) as [c|] eqn:Ec; [|discriminate].
    injection Hs as <- <-. destruct c.
    + simpl. split; [discriminate | exact Hl].
    + assert (j <> Z.of_nat k).
      { intros ->. rewrite Nat2Z.id in Ec. congruence. }
      unfold for_next. destruct (Z.ltb_spec (j + 1) n); [|lia].
      simpl. split; [discriminate | lia].
  - injection Hs as <- <-. split; [discriminate | exact Hl].
  - destruct (number_cond i j b) as [[|]|]; try discriminate;
      injection Hs as <- <-; (split; [discriminate | exact Hl]).
  - injection Hs as <- <-. split; [discriminate | exact Hl].
  - congruence.
Qed.

Lemma spinning_runs (k : nat) (i : Z) (fuel : nat) :
  0 <= i ->
  forall p sleeps b, spinning k i p b -> lock_run fuel i p sleeps b = Running.
Proof.
  intros H0. induction fuel as [|fuel IH]; intros p sleeps b Hs.
  - apply lock_run_zero. apply Hs.
  - rewrite lock_run_step by apply Hs.
    destruct (spinning_step k i p b H0 Hs) as (p' & b' & -> & Hs').
    apply IH. exact Hs'.
Qed.

Lemma lock_run_more_fuel (fuel extra : nat) (i : Z) :
  forall p sleeps b s b',
    lock_run fuel i p sleeps b = Returns s b' ->
    lock_run (fuel + extra) i p sleeps b = Returns s b'.
Proof.
  induction fuel as [|fuel IH]; intros p sleeps b s b';
    destruct (pc_returned_dec p) as [->|Hp];
    rewrite ?lock_run_returned; try (intros H; exact H).
  - rewrite lock_run_zero by assumption. discriminate.
  - simpl plus. rewrite !lock_run_step by assumption.
    destruct (lock_step i p b) as [[p1 b1]|]; [|discriminate]. apply IH.
Qed.

Lemma ticket_taken_clear (i : Z) (b : Bakery) :
  0 <= i -> lengths_agree b -> others_clear (Z.to_nat i) b ->
  none_choosing (ticket_taken i b).
Proof.
  intros H0 Hlen Hoth j c. unfold ticket_taken. simpl.
  destruct (ensure_index_nonneg i b H0 Hlen) as (_ & _ & Lc & _).
  cbv zeta in Lc. revert Lc. rewrite ensure_closed_form. simpl.
  set (l := choosing b ++ replicate (missing i b) false). intros Lc.
  destruct (decide (Z.to_nat i = j)) as [<-|Hne].
  - rewrite list_lookup_insert_eq by (rewrite length_insert; exact Lc).
    congruence.
  - rewrite !list_lookup_insert_ne by assumption.
    unfold l. intros H. apply lookup_app_Some in H as [H|[_ H]].
    + eapply Hoth; [|eassumption]. congruence.
    + apply lookup_replicate_1 in H as [-> _]. reflexivity.
Qed.

Lemma bakery_lock_others_clear (i : Z) (b : Bakery) (fuel : nat) :
  0 <= i -> lengths_agree b -> others_clear (Z.to_nat i) b ->
  (length (number (ticket_taken i b)) + 6 <= fuel)%nat ->
  bakery_lock fuel i b = Returns 0 (ticket_taken i b).
Proof.
  intros H0 Hlen Hoth Hfuel. unfold bakery_lock.
  replace fuel with (6 + (fuel - 6))%nat by lia.
  rewrite lock_run_prologue by assumption.
  apply (wait_loop_no_choosing i _ _ (ticket_taken_clear i b H0 Hlen Hoth))
    with (d := length (number (ticket_taken i b))).
  - unfold ticket_taken, Py.len. simpl. rewrite !length_insert.
    apply ensure_lengths_agree with (idx := i) in Hlen.
    unfold lengths_agree in Hlen. lia.
  - lia.
  - unfold Py.len. lia.
  - lia.
Qed.

(** X2: run alone, [bakery_lock(i)] returns exactly when no slot other
    than its own has [choosing] set, and then it has never slept; a flag
    left set in another slot keeps the call in its loop for ever. *)
Theorem bakery_lock_returns_iff (i : Z) (b : Bakery) :
  0 <= i -> lengths_agree b ->
  ((exists fuel sleeps b', bakery_lock fuel i b = Returns sleeps b') <->
   others_clear (Z.to_nat i) b) /\
  (forall fuel sleeps b',
     bakery_lock fuel i b = Returns sleeps b' -> sleeps = 0%nat) /\
  (forall k : nat, k <> Z.to_nat i -> choosing b !! k = Some true ->
     forall fuel, bakery_lock fuel i b = Running).
Proof.
  intros H0 Hlen.
  assert (Hspin : forall k : nat, k <> Z.to_nat i ->
            choosing b !! k = Some true ->
            forall fuel, bakery_lock fuel i b = Running).
  { intros k Hk Hc fuel. apply (spinning_runs k i fuel H0).
    split; [|split; [discriminate|split; [exact Hc|split; [exact Hk|exact I]]]].
    split; [exact Hlen|]. unfold Py.len.
    split; [lia|]. split; [congruence | exact I]. }
  assert (Hret : (exists fuel sleeps b',
                    bakery_lock fuel i b = Returns sleeps b') ->
                 others_clear (Z.to_nat i) b).
  { intros (fuel & s & b' & Hrun) j c Hj Hc.
    destruct c; [|reflexivity].
    rewrite (Hspin j Hj Hc fuel) in Hrun. discriminate. }
  split; [split; [exact Hret|]|split; [|exact Hspin]].
  - intros Hoth. eexists _, _, _.
    apply (bakery_lock_others_clear i b _ H0 Hlen Hoth). apply Nat.le_refl.
  - intros fuel s b' Hrun.
    assert (Hoth : others_clear (Z.to_nat i) b) by eauto.
    pose proof (lock_run_more_fuel fuel
                  (length (number (ticket_taken i b)) + 6) i _ _ _ _ _ Hrun)
      as Hbig.
    fold (bakery_lock (fuel + (length (number (ticket_taken i b)) + 6)) i b)
      in Hbig.
    rewrite (bakery_lock_others_clear i b _ H0 Hlen Hoth) in Hbig by lia.
    congruence.
Qed.

Lemma bakery_lock_returns_iff_witness :
  0 <= 1 /\ lengths_agree (mkBakery [true; false] [0; 0]) /\
  bakery_lock 50 1 (mkBakery [true; false] [0; 0]) = Running.
Proof.
  split; [lia|]. split; [reflexivity|].
  destruct (bakery_lock_returns_iff 1 (mkBakery [true; false] [0; 0])
              ltac:(lia) eq_refl) as (_ & _ & H).
  apply (H 0%nat); [discriminate | reflexivity].
Defined.

(** ** The ticket of an uncontended call *)

Lemma insert_false_true_id (l : list bool) (k : nat) :
  (forall c, l !! k = Some c -> c = false) ->
  <[k := false]> (<[k := true]> l) = l.
Proof.
  intros H. rewrite list_insert_insert_eq.
  destruct (l !! k) as [c|] eqn:E.
  - apply list_insert_id. rewrite E, (H c eq_refl). reflexivity.
  - apply list_insert_ge. apply lookup_ge_None_1. exact E.
Qed.

Lemma ensure_none_choosing (i : Z) (b : Bakery) :
  none_choosing b -> none_choosing (ensure_bakery_size i b).
Proof.
  intros Hnone k c. rewrite ensure_closed_form. simpl.
  intros H. apply lookup_app_Some in H as [H|[_ H]].
  - eapply Hnone; eassumption.
  - apply lookup_replicate_1 in H as [-> _]. reflexivity.
Qed.

Lemma ticket_taken_flags (i : Z) (b : Bakery) :
  none_choosing b ->
  choosing (ticket_taken i b) = choosing (ensure_bakery_size i b).
Proof.
  intros Hnone. unfold ticket_taken. simpl.
  apply insert_false_true_id. intros c Hc.
  eapply ensure_none_choosing; eassumption.
Qed.

(** X1: with no flag set, [bakery_lock(i)] run alone returns without a
    [sleep]; it leaves every flag as [ensure_bakery_size(i)] left it,
    writes [1 + max(number)] into its own slot and nothing else, and that
    ticket is strictly above every other ticket of the registry. *)
Theorem bakery_lock_uncontended (i : Z) (b : Bakery) (fuel : nat) :
  0 <= i -> lengths_agree b -> none_choosing b ->
  (length (number (ensure_bakery_size i b)) + 6 <= fuel)%nat ->
  let b1 := ensure_bakery_size i b in
  let k := Z.to_nat i in
  let mine := Py.max_or_zero (number b1) + 1 in
  exists b',
    bakery_lock fuel i b = Returns 0 b' /\
    choosing b' = choosing b1 /\
    number b' = <[k := mine]> (number b1) /\
    number b' !! k = Some mine /\
    (forall (j : nat) (t : Z),
       j <> k -> number b' !! j = Some t ->
       number b1 !! j = Some t /\ t < mine).
Proof.
  intros H0 Hlen Hnone Hfuel b1 k mine.
  destruct (ensure_index_nonneg i b H0 Hlen) as (_ & _ & _ & Ln).
  fold b1 k in Ln.
  exists (ticket_taken i b).
  split.
  { apply bakery_lock_no_choosing; try assumption.
    unfold ticket_taken. simpl. rewrite length_insert. exact Hfuel. }
  split; [apply ticket_taken_flags; exact Hnone|].
  split; [reflexivity|].
  split; [apply list_lookup_insert_eq; exact Ln|].
  intros j t Hj Hjt. unfold ticket_taken in Hjt. simpl in Hjt.
  rewrite list_lookup_insert_ne in Hjt
    by (intros E; apply Hj; rewrite <- E; reflexivity).
  split; [exact Hjt|].
  pose proof (max_or_zero_upper (number b1)) as Hmax.
  rewrite Forall_forall in Hmax.
  specialize (Hmax t (list_elem_of_lookup_2 _ _ _ Hjt)).
  unfold mine. lia.
Qed.

Lemma bakery_lock_uncontended_witness :
  exists b',
    bakery_lock 9 2 (mkBakery [false; false; false] [7; 3; 0]) = Returns 0 b' /\
    number b' = [7; 3; 8].
Proof.
  assert (H0 : 0 <= 2) by lia.
  assert (Hnone : none_choosing (mkBakery [false; false; false] [7; 3; 0])).
  { intros [|[|[|k]]] c; simpl; intros [= <-]; reflexivity. }
  assert (Hfuel : (length (number (ensure_bakery_size 2%Z
                     (mkBakery [false; false; false] [7; 3; 0]%Z))) + 6 <= 9)%nat).
  { vm_compute. lia. }
  destruct (bakery_lock_uncontended 2 (mkBakery [false; false; false] [7; 3; 0])
              9 H0 eq_refl Hnone Hfuel) as (b' & Hrun & _ & Hn & _).
  exists b'. split; [exact Hrun | exact Hn].
Defined.

(** ** Acquire then release *)

(** X4: on a slot that is idle (ticket 0, or not yet there) and with no
    flag set, [bakery_lock(i)] followed by [bakery_unlock(i)] leaves the
    registry exactly as [ensure_bakery_size(i)] alone would: the pair
    leaves no trace but the growth. *)
Theorem lock_unlock_round_trip (i : Z) (b : Bakery) (fuel : nat) :
  0 <= i -> lengths_agree b -> none_choosing b ->
  (forall t, number b !! Z.to_nat i = Some t -> t = 0) ->
  (length (number (ensure_bakery_size i b)) + 6 <= fuel)%nat ->
  exists b',
    bakery_lock fuel i b = Returns 0 b' /\
    bakery_unlock i b' = Py.Ok (ensure_bakery_size i b).
Proof.
  intros H0 Hlen Hnone Hidle Hfuel.
  assert (Hrun : bakery_lock fuel i b = Returns 0 (ticket_taken i b)).
  { apply bakery_lock_no_choosing; try assumption.
    unfold ticket_taken. simpl. rewrite length_insert. exact Hfuel. }
  exists (ticket_taken i b). split; [exact Hrun|].
  destruct (ensure_index_nonneg i b H0 Hlen) as (_ & In_ & _ & Ln).
  cbv zeta in In_, Ln.
  unfold bakery_unlock, Py.setitem.
  rewrite (index_length _ (number (ensure_bakery_size i b)))
    by (unfold ticket_taken; simpl; apply length_insert).
  rewrite In_. unfold Py.bind. rewrite ticket_taken_flags by assumption.
  unfold ticket_taken. simpl. rewrite list_insert_insert_eq.
  rewrite list_insert_id.
  - destruct (ensure_bakery_size i b); reflexivity.
  - rewrite ensure_closed_form in *. simpl in *.
    destruct (number b !! Z.to_nat i) as [t|] eqn:E.
    + rewrite (lookup_app_l_Some _ _ _ _ E), (Hidle t eq_refl). reflexivity.
    + apply lookup_ge_None_1 in E. rewrite lookup_app_r by lia.
      apply lookup_replicate_2. rewrite length_app, length_replicate in Ln.
      lia.
Qed.

Lemma lock_unlock_round_trip_witness :
  exists b',
    bakery_lock 9 2 (mkBakery [false] [4]) = Returns 0 b' /\
    bakery_unlock 2 b' = Py.Ok (mkBakery [false; false; false] [4; 0; 0]).
Proof.
  assert (H0 : 0 <= 2) by lia.
  assert (Hnone : none_choosing (mkBakery [false] [4])).
  { intros [|k] c; simpl; intros [= <-]; reflexivity. }
  assert (Hidle : forall t,
            number (mkBakery [false] [4]) !! Z.to_nat 2 = Some t -> t = 0).
  { simpl. discriminate. }
  assert (Hfuel : (length (number (ensure_bakery_size 2%Z
                     (mkBakery [false] [4]%Z))) + 6 <= 9)%nat).
  { vm_compute. lia. }
  exact (lock_unlock_round_trip 2 (mkBakery [false] [4]) 9
           H0 eq_refl Hnone Hidle Hfuel).
Defined.

(** X5: a release that succeeds can be repeated without effect, and a
    release of a slot whose ticket is already 0 changes nothing at all:
    releasing an id that holds nothing is harmless. *)
Theorem bakery_unlock_idempotent (i : Z) (b b' : Bakery) (k : nat) :
  Py.index (number b) i = Some k ->
  bakery_unlock i b = Py.Ok b' ->
  bakery_unlock i b' = Py.Ok b' /\
  (number b !! k = Some 0 -> b' = b).
Proof.
  intros Hk. unfold bakery_unlock, Py.setitem. rewrite Hk. simpl.
  intros [= <-]. simpl.
  rewrite (index_length _ (number b)) by apply length_insert.
  rewrite Hk. simpl. rewrite list_insert_insert_eq. split; [reflexivity|].
  intros Hz. rewrite list_insert_id by exact Hz. destruct b; reflexivity.
Qed.

Lemma bakery_unlock_idempotent_witness :
  bakery_unlock 0 (mkBakery [false; false] [0; 5]) =
    Py.Ok (mkBakery [false; false] [0; 5]).
Proof.
  exact (proj1 (bakery_unlock_idempotent 0 (mkBakery [false; false] [0; 5])
                  (mkBakery [false; false] [0; 5]) 0%nat eq_refl eq_refl)).
Defined.

(** * Properties of interleaved runs *)

(** ** What one statement does to the slots *)

Lemma flag_ensure (i : Z) (b : Bakery) (k : nat) :
  flag (ensure_bakery_size i b) k = flag b k.
Proof.
  unfold flag. rewrite ensure_closed_form. simpl.
  destruct (choosing b !! k) as [c|] eqn:E.
  - rewrite (lookup_app_l_Some _ _ _ _ E). reflexivity.
  - apply lookup_ge_None_1 in E. rewrite lookup_app_r by exact E.
    destruct (replicate (missing i b) false !! (k - length (choosing b))%nat)
      as [c|] eqn:E'; [|reflexivity].
    apply lookup_replicate_1 in E' as [-> _]. reflexivity.
Qed.

Lemma ticket_ensure (i : Z) (b : Bakery) (k : nat) :
  ticket (ensure_bakery_size i b) k = ticket b k.
Proof.
  unfold ticket. rewrite ensure_closed_form. simpl.
  destruct (number b !! k) as [c|] eqn:E.
  - rewrite (lookup_app_l_Some _ _ _ _ E). reflexivity.
  - apply lookup_ge_None_1 in E. rewrite lookup_app_r by exact E.
    destruct (replicate (missing i b) 0 !! (k - length (number b))%nat)
      as [c|] eqn:E'; [|reflexivity].
    apply lookup_replicate_1 in E' as [-> _]. reflexivity.
Qed.

Lemma ensure_grows (i : Z) (b : Bakery) :
  (length (choosing b) <= length (choosing (ensure_bakery_size i b)))%nat /\
  (length (number b) <= length (number (ensure_bakery_size i b)))%nat.
Proof.
  rewrite ensure_closed_form. simpl. rewrite !length_app. lia.
Qed.

(** A statement of participant [i] never shortens the lists and leaves
    the flag and the ticket of every other slot as they were. *)
Lemma lock_step_frame (i : Z) (p p' : pc) (b b' : Bakery) :
  0 <= i -> lock_step i p b = Py.Ok (p', b') ->
  (length (choosing b) <= length (choosing b'))%nat /\
  (length (number b) <= length (number b'))%nat /\
  (forall k : nat, k <> Z.to_nat i ->
     flag b' k = flag b k /\ ticket b' k = ticket b k).
Proof.
  intros H0 Hs.
  destruct p as [| | |m| | |n j|n j|n j|n j|]; simpl in Hs;
    unfold Py.bind in Hs;
    try (injection Hs as <- <-; repeat split; lia).
  - injection Hs as <- <-. destruct (ensure_grows i b).
    repeat split; auto using flag_ensure, ticket_ensure.
  - destruct (Py.setitem (choosing b) i true) as [ch|] eqn:E; [|discriminate].
    injection Hs as <- <-. apply setitem_nonneg in E as [-> _]; [|exact H0].
    simpl. rewrite length_insert. repeat split; try lia.
    unfold flag. simpl. rewrite list_lookup_insert_ne by congruence.
    reflexivity.
  - destruct (Py.setitem (number b) i (m + 1)) as [nm|] eqn:E; [|discriminate].
    injection Hs as <- <-. apply setitem_nonneg in E as [-> _]; [|exact H0].
    simpl. rewrite length_insert. repeat split; try lia.
    unfold ticket. simpl. rewrite list_lookup_insert_ne by congruence.
    reflexivity.
  - destruct (Py.setitem (choosing b) i false) as [ch|] eqn:E; [|discriminate].
    injection Hs as <- <-. apply setitem_nonneg in E as [-> _]; [|exact H0].
    simpl. rewrite length_insert. repeat split; try lia.
    unfold flag. simpl. rewrite list_lookup_insert_ne by congruence.
    reflexivity.
  - destruct (Py.getitem (choosing b) j); [|discriminate].
    injection Hs as <- <-. repeat split; lia.
  - destruct (number_cond i j b); [|discriminate].
    injection Hs as <- <-. repeat split; lia.
Qed.

Lemma bakery_unlock_frame_slots (i : Z) (b b' : Bakery) :
  0 <= i -> bakery_unlock i b = Py.Ok b' ->
  choosing b' = choosing b /\
  length (number b') = length (number b) /\
  ticket b' (Z.to_nat i) = 0 /\
  (forall k : nat, k <> Z.to_nat i -> ticket b' k = ticket b k).
Proof.
  intros H0. unfold bakery_unlock, Py.bind.
  destruct (Py.setitem (number b) i 0) as [nm|] eqn:E; [|discriminate].
  intros [= <-]. apply setitem_nonneg in E as [-> Hlt]; [|exact H0].
  simpl. rewrite length_insert. repeat split.
  - unfold ticket. simpl. rewrite list_lookup_insert_eq by exact Hlt.
    reflexivity.
  - intros k Hk. unfold ticket. simpl.
    rewrite list_lookup_insert_ne by congruence. reflexivity.
Qed.

Lemma thread_step_frame (i : Z) (th th' : thread) (b b' : Bakery) :
  0 <= i -> thread_step i th b = Py.Ok (th', b') ->
  (length (choosing b) <= length (choosing b'))%nat /\
  (length (number b) <= length (number b'))%nat /\
  (forall k : nat, k <> Z.to_nat i ->
     flag b' k = flag b k /\ ticket b' k = ticket b k).
Proof.
  intros H0 Hs.
  destruct (thread_step_effect _ _ _ _ _ Hs) as [->|[(p & p' & H)|H]].
  - repeat split; lia.
  - eapply lock_step_frame; eassumption.
  - destruct (bakery_unlock_frame_slots i b b' H0 H) as (Ec & En & _ & Ht).
    rewrite Ec, En. repeat split; try lia.
    + unfold flag. rewrite Ec. reflexivity.
    + apply Ht. assumption.
Qed.

(** ** The slot of the participant that moves *)

Lemma max_or_zero_nonneg (b : Bakery) :
  (forall k, 0 <= ticket b k) -> 0 <= Py.max_or_zero (number b).
Proof.
  intros Hpos. destruct (number b) as [|x l] eqn:E; [simpl; lia|].
  assert (Hin : In (Py.max_or_zero (x :: l)) (x :: l))
    by (apply max_or_zero_in; discriminate).
  apply list_elem_of_In, list_elem_of_lookup in Hin as [k Hk].
  specialize (Hpos k). unfold ticket in Hpos. rewrite E, Hk in Hpos.
  exact Hpos.
Qed.

Lemma waiting_for_next (n j : Z) : waiting (for_next n j) = true.
Proof. unfold for_next. destruct (j <? n); reflexivity. Qed.

Lemma in_lock_facts (x : call_site) (p : pc) :
  lock_pc (in_lock x p) = Some p /\
  (p <> AtEnsure -> has_slot (in_lock x p) = true) /\
  (ticket_written p = true -> holds_ticket (in_lock x p) = true) /\
  (holds_ticket (in_lock x p) = false -> ticket_written p = false) /\
  (has_slot (in_lock x p) = false -> holds_ticket (in_lock x p) = false).
Proof.
  destruct x; repeat split; try reflexivity;
    destruct p; simpl; congruence.
Qed.

(** From line 68 on, the statements of a call change nothing of what holds
    of the slot. *)
Lemma thread_inv_waiting (i : Z) (x : call_site) (p p' : pc) (b : Bakery) :
  waiting p = true -> waiting p' = true ->
  thread_inv i (in_lock x p) b -> loop_ok p' b ->
  thread_inv i (in_lock x p') b.
Proof.
  intros Hp Hp' (Hslot & Hflag & Htick & _ & _) Hloop.
  assert (Hs : has_slot (in_lock x p) = true)
    by (destruct x, p; try discriminate; reflexivity).
  assert (Hh : holds_ticket (in_lock x p) = true)
    by (destruct x, p; try discriminate; reflexivity).
  assert (Hh' : holds_ticket (in_lock x p') = true)
    by (destruct x, p'; try discriminate; reflexivity).
  rewrite thread_window_in_lock in *.
  assert (Hw : in_choosing_window p = false)
    by (destruct p; try discriminate; reflexivity).
  assert (Hw' : in_choosing_window p' = false)
    by (destruct p'; try discriminate; reflexivity).
  rewrite Hh in Htick. rewrite Hw in Hflag.
  split; [intros _; apply Hslot; exact Hs|].
  split; [rewrite thread_window_in_lock, Hw'; exact Hflag|].
  split; [rewrite Hh'; exact Htick|].
  unfold thread_loop_ok, max_num_ok.
  destruct (in_lock_facts x p') as (-> & _).
  split; [exact Hloop|]. destruct p'; try discriminate; exact I.
Qed.

(** A statement of [bakery_lock], in any of the three calls, keeps what
    holds of the slot of the participant that executes it. *)
Ltac open_thread_inv x :=
  unfold thread_inv, thread_loop_ok, max_num_ok;
  rewrite thread_window_in_lock;
  match goal with
  | |- context [lock_pc (in_lock x ?q)] =>
      destruct (in_lock_facts x q) as (-> & _)
  end.

Lemma lock_step_own (i : Z) (x : call_site) (p p' : pc) (b b' : Bakery) :
  0 <= i -> lengths_agree b -> (forall k, 0 <= ticket b k) ->
  thread_inv i (in_lock x p) b ->
  lock_step i p b = Py.Ok (p', b') ->
  thread_inv i (in_lock x p') b' /\ 0 <= ticket b' (Z.to_nat i).
Proof.
  intros H0 Hlen Hpos Hinv Hs.
  assert (Hinv' := Hinv).
  destruct Hinv' as (Hslot & Hflag & Htick & Hloop & Hmax).
  rewrite thread_window_in_lock in Hflag.
  unfold thread_loop_ok in Hloop. unfold max_num_ok in Hmax.
  destruct (in_lock_facts x p) as (Epc & Hs1 & _). rewrite Epc in Hloop, Hmax.
  assert (Hlen' := Hlen). unfold lengths_agree in Hlen'.
  destruct p as [| | |m| | |n j|n j|n j|n j|]; simpl in Hs;
    unfold Py.bind in Hs; simpl in Hflag, Hloop, Hmax.
  - (* line 61 *)
    injection Hs as <- <-. open_thread_inv x.
    destruct (ensure_index_nonneg i b H0 Hlen) as (_ & _ & _ & Ln).
    cbv zeta in Ln. rewrite ticket_ensure, flag_ensure.
    split; [|apply Hpos].
    split; [intros _; exact Ln|].
    split; [exact Hflag|].
    split; [|split; exact I].
    destruct x; exact Htick.
  - (* line 62 *)
    destruct (Py.setitem (choosing b) i true) as [ch|] eqn:E; [|discriminate].
    injection Hs as <- <-. apply setitem_nonneg in E as [-> Hlt]; [|exact H0].
    open_thread_inv x.
    split; [|apply Hpos].
    split; [intros _; apply Hslot; apply Hs1; discriminate|].
    split; [unfold flag; simpl; rewrite list_lookup_insert_eq by exact Hlt;
            reflexivity|].
    split; [|split; exact I].
    destruct x; exact Htick.
  - (* line 64 *)
    injection Hs as <- <-. open_thread_inv x. split; [|apply Hpos].
    split; [intros _; apply Hslot; apply Hs1; discriminate|].
    split; [exact Hflag|].
    split; [destruct x; exact Htick|].
    split; [exact I|]. apply max_or_zero_nonneg. exact Hpos.
  - (* line 65 *)
    destruct (Py.setitem (number b) i (m + 1)) as [nm|] eqn:E; [|discriminate].
    injection Hs as <- <-. apply setitem_nonneg in E as [-> Hlt]; [|exact H0].
    open_thread_inv x.
    assert (Et : ticket (mkBakery (choosing b) (<[Z.to_nat i := m + 1]> (number b)))
                   (Z.to_nat i) = m + 1).
    { unfold ticket. simpl. rewrite list_lookup_insert_eq by exact Hlt.
      reflexivity. }
    rewrite Et. split; [|lia].
    split; [intros _; simpl; rewrite length_insert; exact Hlt|].
    split; [exact Hflag|].
    split; [destruct x; simpl; lia|]. split; exact I.
  - (* line 66 *)
    destruct (Py.setitem (choosing b) i false) as [ch|] eqn:E; [|discriminate].
    injection Hs as <- <-. apply setitem_nonneg in E as [-> Hlt]; [|exact H0].
    open_thread_inv x.
    split; [|apply Hpos].
    split; [intros _; apply Hslot; apply Hs1; discriminate|].
    split; [unfold flag; simpl; rewrite list_lookup_insert_eq by exact Hlt;
            reflexivity|].
    split; [|split; exact I].
    destruct x; exact Htick.
  - (* line 68 *)
    injection Hs as <- <-. split; [|apply Hpos].
    apply (thread_inv_waiting i x AtFor); auto using waiting_for_next.
    apply for_next_loop_ok; lia.
  - (* line 70 *)
    destruct (Py.getitem (choosing b) j) as [c|]; [|discriminate].
    injection Hs as <- <-. split; [|apply Hpos].
    unfold loop_ok in Hloop. simpl in Hloop.
    apply (thread_inv_waiting i x (AtWhileChoosing n j)); auto.
    + destruct c; [reflexivity | apply waiting_for_next].
    + destruct c; [exact Hloop | apply for_next_loop_ok; lia].
  - injection Hs as <- <-. split; [|apply Hpos].
    apply (thread_inv_waiting i x (AtSleepChoosing n j)); auto.
  - destruct (number_cond i j b) as [c|]; [|discriminate].
    injection Hs as <- <-. split; [|apply Hpos].
    apply (thread_inv_waiting i x (AtWhileNumber n j)); auto;
      destruct c; auto.
  - injection Hs as <- <-. split; [|apply Hpos].
    apply (thread_inv_waiting i x (AtSleepNumber n j)); auto.
  - injection Hs as <- <-. split; [exact Hinv | apply Hpos].
Qed.

Lemma thread_step_own (i : Z) (th th' : thread) (b b' : Bakery) :
  0 <= i -> lengths_agree b -> (forall k, 0 <= ticket b k) ->
  thread_inv i th b ->
  thread_step i th b = Py.Ok (th', b') ->
  thread_inv i th' b' /\ 0 <= ticket b' (Z.to_nat i).
Proof.
  intros H0 Hlen Hpos Hinv Hs.
  destruct (thread_step_inv _ _ _ _ _ Hs)
    as [(Hc & ->)|[(x & p & p' & _ & -> & -> & H)|(Hr & H)]].
  - split; [|apply Hpos].
    destruct Hc as [(-> & ->)|[(-> & ->)|[(-> & ->)|(x & -> & ->)]]];
      try exact Hinv.
    destruct x; exact Hinv.
  - eapply lock_step_own; eassumption.
  - destruct Hinv as (Hslot & Hflag & _).
    destruct (bakery_unlock_frame_slots i b b' H0 H) as (Ec & En & Et & _).
    rewrite Et. split; [|lia].
    assert (Hsl : has_slot th = true)
      by (destruct Hr as [(-> & _)|[(-> & _)|(-> & _)]]; reflexivity).
    assert (Hw : thread_window th = false /\ thread_window th' = false)
      by (apply thread_window_releases; exact Hr).
    destruct Hw as [Hw Hw'].
    assert (Hh : holds_ticket th' = false)
      by (destruct Hr as [(_ & ->)|[(_ & ->)|(_ & ->)]]; reflexivity).
    split; [intros _; rewrite En; apply Hslot; exact Hsl|].
    split; [rewrite Hw'; rewrite Hw in Hflag; unfold flag in *; rewrite Ec;
            exact Hflag|].
    split; [rewrite Hh; exact Et|].
    destruct Hr as [(_ & ->)|[(_ & ->)|(_ & ->)]]; split; exact I.
Qed.

(** The slot of a participant that does not move. *)
Lemma thread_inv_frame (i : Z) (th : thread) (b b' : Bakery) :
  (length (number b) <= length (number b'))%nat ->
  flag b' (Z.to_nat i) = flag b (Z.to_nat i) ->
  ticket b' (Z.to_nat i) = ticket b (Z.to_nat i) ->
  thread_inv i th b -> thread_inv i th b'.
Proof.
  intros Hn Hf Ht (Hslot & Hflag & Htick & Hloop & Hmax).
  split; [intros H; specialize (Hslot H); lia|].
  split; [rewrite Hf; exact Hflag|].
  split; [rewrite Ht; exact Htick|].
  split; [|exact Hmax].
  unfold thread_loop_ok in *. destruct (lock_pc th) as [p|]; [|exact I].
  unfold loop_ok in *. destruct (loop_index p) as [[n j]|]; [|exact I].
  unfold Py.len in *. lia.
Qed.

(** ** The invariant of interleaved runs *)

Lemma fresh_start_config_inv (c : Config) : fresh_start c -> config_inv c.
Proof.
  intros (Hids & Hlen & Hidle & Hdef).
  split; [exact Hids|]. split; [exact Hlen|].
  split; [intros k; destruct (Hdef k) as [_ ->]; lia|].
  split; [|intros k _; apply Hdef].
  intros t i th Ht.
  destruct (Hdef (Z.to_nat i)) as [Hf Hz].
  destruct (Hidle _ _ _ Ht) as [->| ->];
    (split; [discriminate|]; split; [exact Hf|]; split; [exact Hz|];
     split; exact I).
Qed.

Lemma quiescent_fresh_start (c : Config) : quiescent c -> fresh_start c.
Proof.
  intros (Hids & Hlen & Hidle & Hdef).
  split; [exact Hids|]. split; [exact Hlen|]. split; [|exact Hdef].
  intros t i th Ht. left. eapply Hidle; eassumption.
Qed.

Lemma quiescent_config_inv (c : Config) : quiescent c -> config_inv c.
Proof. intros H. apply fresh_start_config_inv, quiescent_fresh_start, H. Qed.

Lemma sys_step_owned (t : nat) (c c' : Config) (k : nat) :
  sys_step t c = Py.Ok c' -> owned c' k -> owned c k.
Proof.
  intros Hs (t2 & th2 & H2).
  assert (Hi : (fst <$> threads c') !! t2 = Some (Z.of_nat k))
    by (rewrite list_lookup_fmap, H2; reflexivity).
  rewrite (sys_step_ids _ _ _ Hs), list_lookup_fmap in Hi.
  destruct (threads c !! t2) as [[i3 th3]|] eqn:E3; [|discriminate].
  injection Hi as ->. exists t2, th3. exact E3.
Qed.

Lemma sys_step_config_inv (t : nat) (c c' : Config) :
  sys_step t c = Py.Ok c' -> config_inv c -> config_inv c'.
Proof.
  intros Hstep (Hids & Hlen & Hpos & Hthr & Hun).
  assert (Hids' : ids_ok c') by (eapply sys_step_ids_ok; eassumption).
  assert (Hown : forall k, owned c' k -> owned c k)
    by (intros k; eapply sys_step_owned; eassumption).
  unfold sys_step in Hstep.
  destruct (threads c !! t) as [[i th]|] eqn:Et;
    [|injection Hstep as <-; exact (conj Hids (conj Hlen (conj Hpos (conj Hthr Hun))))].
  unfold Py.bind in Hstep.
  destruct (thread_step i th (shared c)) as [[th' b']|] eqn:Es; [|discriminate].
  injection Hstep as <-. cbn [shared threads fst snd] in *.
  destruct Hids as [Hnd Hnn].
  pose proof (Hnn _ _ _ Et) as Hi.
  destruct (thread_step_frame i th th' _ _ Hi Es) as (Hgc & Hgn & Hfr).
  destruct (thread_step_own i th th' _ _ Hi Hlen Hpos (Hthr _ _ _ Et) Es)
    as (Hmine & Hmine_pos).
  split; [exact Hids'|]. cbn [shared threads].
  split; [eapply thread_step_lengths; eassumption|].
  split.
  { intros k. destruct (decide (k = Z.to_nat i)) as [->|Hk];
      [exact Hmine_pos|]. destruct (Hfr k Hk) as [_ ->]. apply Hpos. }
  split.
  - intros t2 i2 th2 H2.
    apply list_lookup_insert_Some in H2 as [(<- & E & _)|(Hne & H2)].
    + injection E as <- <-. exact Hmine.
    + assert (Hk : Z.to_nat i2 <> Z.to_nat i).
      { intros Ek. apply Hne. apply (NoDup_lookup _ _ _ i Hnd).
        - rewrite list_lookup_fmap, Et. reflexivity.
        - rewrite list_lookup_fmap, H2. simpl. f_equal.
          pose proof (Hnn _ _ _ H2). lia. }
      destruct (Hfr _ Hk) as [Hf Htk].
      apply (thread_inv_frame i2 th2 (shared c) b' Hgn Hf Htk).
      eapply Hthr; eassumption.
  - intros k Hk.
    assert (Hne : k <> Z.to_nat i).
    { intros ->. apply Hk. exists t, th'. simpl.
      rewrite Z2Nat.id by exact Hi.
      apply list_lookup_insert_eq. eapply lookup_lt_Some; eassumption. }
    destruct (Hfr k Hne) as [-> ->]. apply Hun.
    intros Ho. apply Hk. destruct Ho as (t2 & th2 & H2).
    destruct (decide (t = t2)) as [<-|Htt].
    + exists t, th'. simpl. rewrite Et in H2. injection H2 as -> _.
      apply list_lookup_insert_eq. eapply lookup_lt_Some; eassumption.
    + exists t2, th2. simpl. rewrite list_lookup_insert_ne by exact Htt.
      exact H2.
Qed.

(** In a state that satisfies the invariant every participant can execute
    its next statement: nothing raises. *)
Lemma sys_step_total (t : nat) (c : Config) :
  config_inv c -> exists c', sys_step t c = Py.Ok c'.
Proof.
  intros ((Hnd & Hnn) & Hlen & Hpos & Hthr & _). unfold sys_step.
  destruct (threads c !! t) as [[i th]|] eqn:Et; [|eauto].
  pose proof (Hnn _ _ _ Et) as Hi.
  destruct (Hthr _ _ _ Et) as (Hslot & _ & _ & Hloop & _).
  assert (Hlock : forall x p, th = in_lock x p ->
            exists tb, thread_step i th (shared c) = Py.Ok tb).
  { intros x p ->.
    destruct (pc_returned_dec p) as [->|Hp];
      [rewrite thread_step_returned; eauto|].
    rewrite thread_step_in_lock by exact Hp.
    destruct (lock_step_ready i p (shared c)) as (p' & b' & -> & _);
      [|simpl; eauto].
    unfold thread_loop_ok in Hloop.
    destruct (in_lock_facts x p) as (Epc & Hs & _). rewrite Epc in Hloop.
    split; [exact Hlen|]. unfold Py.len. split; [lia|].
    split; [|exact Hloop].
    intros Hne. specialize (Hslot (Hs Hne)). lia. }
  assert (Hrel : has_slot th = true ->
            exists b', bakery_unlock i (shared c) = Py.Ok b').
  { intros Hs.
    destruct (setitem_in_range (number (shared c)) i 0) as (nm & E & _).
    { specialize (Hslot Hs). unfold Py.len. lia. }
    unfold bakery_unlock. rewrite E. simpl. eauto. }
  assert (Hstep : exists tb, thread_step i th (shared c) = Py.Ok tb).
  { destruct th as [|p| | |p| |p| |];
      try (simpl; eauto; fail);
      try (destruct (Hrel eq_refl) as [b' E]; simpl; rewrite E; simpl; eauto;
           fail).
    - apply (Hlock Plain p eq_refl).
    - apply (Hlock Opening p eq_refl).
    - apply (Hlock Nested p eq_refl). }
  destruct Hstep as [tb ->]. simpl. eauto.
Qed.

Lemma run_schedule_config_inv (sched : list nat) (c : Config) :
  config_inv c ->
  exists c', run_schedule sched c = Py.Ok c' /\ config_inv c'.
Proof.
  revert c. induction sched as [|t sched IH]; intros c Hinv; simpl.
  - eauto.
  - destruct (sys_step_total t c Hinv) as [c1 E]. rewrite E. simpl.
    apply IH. eapply sys_step_config_inv; eassumption.
Qed.

(** ** What every interleaving keeps *)

Lemma owned_dec (c : Config) (k : nat) : owned c k \/ ~ owned c k.
Proof.
  destruct (decide (Z.of_nat k ∈ fst <$> threads c)) as [Hin|Hout].
  - left. apply list_elem_of_fmap in Hin as ([i th] & E & Hin).
    apply list_elem_of_lookup in Hin as [t Ht]. simpl in E. subst i.
    exists t, th. exact Ht.
  - right. intros (t & th & Ht). apply Hout.
    apply list_elem_of_fmap. exists (Z.of_nat k, th). split; [reflexivity|].
    apply list_elem_of_lookup. exists t. exact Ht.
Qed.

Lemma two_participants_eq :
  two_participants =
  mkConfig (mkBakery [false; false] [0; 0]) [(0, Idle); (1, Idle)].
Proof. reflexivity. Qed.

Lemma quiescent_two_participants : quiescent two_participants.
Proof.
  rewrite two_participants_eq. split; [split|split; [|split]].
  - simpl. apply (bool_decide_unpack _). reflexivity.
  - intros [|[|t]] i th; simpl; intros [= <- <-] || discriminate; lia.
  - reflexivity.
  - intros [|[|t]] i th; simpl; intros [= <- <-] || discriminate; reflexivity.
  - intros [|[|k]]; split; reflexivity.
Qed.

(** X6: from a start with distinct non-negative ids, every participant
    idle and every slot at its default, no interleaving of the statements
    of [bakery_lock] and [bakery_unlock] raises [IndexError]: every
    schedule runs to its end. *)
Theorem interleaving_never_raises (sched : list nat) (c : Config) :
  quiescent c -> exists c', run_schedule sched c = Py.Ok c'.
Proof.
  intros Hq.
  destruct (run_schedule_config_inv sched c (quiescent_config_inv c Hq))
    as (c' & E & _).
  exists c'. exact E.
Qed.

Lemma interleaving_never_raises_witness :
  exists c', run_schedule [0; 1; 1; 0; 1; 0; 0; 1]%nat two_participants
             = Py.Ok c'.
Proof.
  exact (interleaving_never_raises [0; 1; 1; 0; 1; 0; 0; 1]%nat
           two_participants quiescent_two_participants).
Defined.

Lemma fresh_reached_config_inv (sched : list nat) (c c' : Config) :
  fresh_start c -> run_schedule sched c = Py.Ok c' -> config_inv c'.
Proof.
  intros Hq Hrun.
  destruct (run_schedule_config_inv sched c (fresh_start_config_inv c Hq))
    as (c2 & E & Hinv).
  rewrite Hrun in E. injection E as <-. exact Hinv.
Qed.

Lemma reached_config_inv (sched : list nat) (c c' : Config) :
  quiescent c -> run_schedule sched c = Py.Ok c' -> config_inv c'.
Proof.
  intros Hq. apply fresh_reached_config_inv, quiescent_fresh_start, Hq.
Qed.

(** A participant that was idle at the start never makes the nested
    call. *)
Lemma thread_step_plain (i : Z) (th th' : thread) (b b' : Bakery) :
  plain th -> thread_step i th b = Py.Ok (th', b') -> plain th'.
Proof.
  intros Hp Hs.
  destruct (thread_step_inv _ _ _ _ _ Hs)
    as [(Hc & _)|[(x & p & p' & _ & -> & -> & _)|(Hr & _)]].
  - destruct Hc as [(-> & ->)|[(-> & ->)|[(-> & ->)|(x & -> & ->)]]];
      try exact I; try contradiction.
    destruct x; try exact I; contradiction.
  - destruct x; try exact I; contradiction.
  - destruct Hr as [(-> & ->)|[(-> & ->)|(-> & ->)]];
      try exact I; contradiction.
Qed.

Lemma run_schedule_plain (sched : list nat) (c c' : Config) :
  (forall t i th, threads c !! t = Some (i, th) -> plain th) ->
  run_schedule sched c = Py.Ok c' ->
  forall t i th, threads c' !! t = Some (i, th) -> plain th.
Proof.
  revert c. induction sched as [|t0 sched IH]; intros c Hp; simpl.
  - intros [= <-]. exact Hp.
  - unfold Py.bind at 1.
    destruct (sys_step t0 c) as [c1|] eqn:E; [|discriminate].
    apply IH. unfold sys_step in E.
    destruct (threads c !! t0) as [[i0 th0]|] eqn:Et;
      [|injection E as <-; exact Hp].
    unfold Py.bind in E.
    destruct (thread_step i0 th0 (shared c)) as [[th1 b1]|] eqn:Es;
      [|discriminate].
    injection E as <-. simpl. intros t i th H.
    apply list_lookup_insert_Some in H as [(<- & H & _)|(_ & H)].
    + injection H as <- <-. eapply thread_step_plain; [|exact Es].
      eapply Hp; exact Et.
    + eapply Hp; exact H.
Qed.

Lemma quiescent_plain (c : Config) :
  quiescent c -> forall t i th, threads c !! t = Some (i, th) -> plain th.
Proof.
  intros (_ & _ & Hidle & _) t i th Ht. rewrite (Hidle _ _ _ Ht). exact I.
Qed.

(** X7: in every state an interleaving reaches from such a start,
    [choosing[k]] is true exactly when slot [k] belongs to a participant
    that has executed line 62 and not yet line 66 of [bakery_lock]. *)
Theorem flag_set_iff_in_window (sched : list nat) (c c' : Config) (k : nat) :
  quiescent c -> run_schedule sched c = Py.Ok c' ->
  (choosing (shared c') !! k = Some true <->
   exists (t : nat) (p : pc),
     threads c' !! t = Some (Z.of_nat k, Locking p) /\
     in_choosing_window p = true).
Proof.
  intros Hq Hrun.
  destruct (reached_config_inv sched c c' Hq Hrun)
    as (_ & _ & _ & Hthr & Hun).
  split.
  - intros Hk.
    assert (Hf : flag (shared c') k = true) by (unfold flag; rewrite Hk; reflexivity).
    destruct (owned_dec c' k) as [(t & th & Ht)|Hno].
    + destruct (Hthr _ _ _ Ht) as (_ & Hflag & _).
      rewrite Nat2Z.id, Hf in Hflag.
      pose proof (run_schedule_plain sched c c' (quiescent_plain c Hq) Hrun
                    _ _ _ Ht) as Hp.
      destruct th as [|p| | |p| |p| |]; try contradiction;
        try discriminate Hflag.
      exists t, p. split; [exact Ht | symmetry; exact Hflag].
    + destruct (Hun k Hno) as [Hfalse _]. congruence.
  - intros (t & p & Ht & Hw).
    destruct (Hthr _ _ _ Ht) as (_ & Hflag & _).
    rewrite Nat2Z.id in Hflag.
    change (thread_window (Locking p)) with (in_choosing_window p) in Hflag.
    rewrite Hw in Hflag.
    unfold flag in Hflag.
    destruct (choosing (shared c') !! k) as [[|]|]; try discriminate Hflag.
    reflexivity.
Qed.

Lemma flag_set_iff_in_window_witness :
  exists c',
    run_schedule [1; 1; 1; 0]%nat two_participants = Py.Ok c' /\
    choosing (shared c') !! 1%nat = Some true.
Proof.
  eexists. split; [reflexivity|].
  apply (flag_set_iff_in_window [1; 1; 1; 0]%nat two_participants _ 1
           quiescent_two_participants eq_refl).
  exists 1%nat, AtReadMax. split; reflexivity.
Defined.

Lemma fresh_start_one_new : fresh_start (mkConfig bakery_init [(0, New)]).
Proof.
  split; [split|split; [|split]].
  - simpl. apply (bool_decide_unpack _). reflexivity.
  - intros [|t] i th; simpl; intros [= <- <-] || discriminate; lia.
  - reflexivity.
  - intros [|t] i th; simpl; intros [= <- <-] || discriminate; auto.
  - intros k. split; reflexivity.
Qed.

(** X8: in every state an interleaving reaches from a start whose
    participants are idle or just created, no ticket is negative, and
    [number[k]] is non-zero exactly when slot [k] belongs to a participant
    that has written a ticket (line 65) and has not executed
    [bakery_unlock] since; the ticket is then at least 1.  A participant
    in the section of [option_1_simulate_process], once the [set_state] it
    calls there has run its [bakery_unlock], is still in its critical
    section and its ticket is 0. *)
Theorem ticket_nonzero_iff_held (sched : list nat) (c c' : Config) (k : nat) :
  fresh_start c -> run_schedule sched c = Py.Ok c' ->
  (forall x, number (shared c') !! k = Some x -> 0 <= x) /\
  ((exists x, number (shared c') !! k = Some x /\ x <> 0) <->
   (exists (t : nat) (th : thread),
      threads c' !! t = Some (Z.of_nat k, th) /\ holds_ticket th = true)) /\
  (forall (t : nat) (th : thread),
     threads c' !! t = Some (Z.of_nat k, th) -> holds_ticket th = true ->
     exists x, number (shared c') !! k = Some x /\ 1 <= x) /\
  (forall t : nat,
     threads c' !! t = Some (Z.of_nat k, Released) ->
     is_critical (Z.of_nat k, Released) = true /\
     number (shared c') !! k = Some 0).
Proof.
  intros Hq Hrun.
  destruct (fresh_reached_config_inv sched c c' Hq Hrun)
    as (_ & _ & Hpos & Hthr & Hun).
  assert (Hheld : forall (t : nat) (th : thread),
            threads c' !! t = Some (Z.of_nat k, th) ->
            holds_ticket th = true ->
            exists x, number (shared c') !! k = Some x /\ 1 <= x).
  { intros t th Ht Hh. destruct (Hthr _ _ _ Ht) as (_ & _ & Htick & _).
    rewrite Nat2Z.id, Hh in Htick. unfold ticket in Htick.
    destruct (number (shared c') !! k) as [x|]; simpl in Htick; [|lia].
    exists x. split; [reflexivity | exact Htick]. }
  split; [|split; [split|split; [exact Hheld|]]].
  - intros x Hx. specialize (Hpos k). unfold ticket in Hpos.
    rewrite Hx in Hpos. exact Hpos.
  - intros (x & Hx & Hnz).
    assert (Ht : ticket (shared c') k = x) by (unfold ticket; rewrite Hx; reflexivity).
    destruct (owned_dec c' k) as [(t & th & Hth)|Hno].
    + exists t, th. split; [exact Hth|].
      destruct (Hthr _ _ _ Hth) as (_ & _ & Htick & _).
      rewrite Nat2Z.id, Ht in Htick.
      destruct (holds_ticket th); [reflexivity | contradiction].
    + destruct (Hun k Hno) as [_ Hz]. congruence.
  - intros (t & th & Hth & Hh).
    destruct (Hheld t th Hth Hh) as (x & Hx & Hge).
    exists x. split; [exact Hx | lia].
  - intros t Ht. split; [reflexivity|].
    destruct (Hthr _ _ _ Ht) as (Hslot & _ & Htick & _).
    rewrite Nat2Z.id in Hslot, Htick. simpl in Htick.
    destruct (lookup_lt_is_Some_2 _ _ (Hslot eq_refl)) as [x Hx].
    unfold ticket in Htick. rewrite Hx in Htick. simpl in Htick.
    rewrite Hx, Htick. reflexivity.
Qed.

Lemma ticket_nonzero_iff_held_witness :
  run_schedule (replicate 19 0%nat) (mkConfig bakery_init [(0, New)]) =
    Py.Ok (mkConfig (mkBakery [false] [0]) [(0, Released)]) /\
  is_critical (0, Released) = true /\
  number (mkBakery [false] [0]) !! 0%nat = Some 0.
Proof.
  split; [reflexivity|].
  destruct (ticket_nonzero_iff_held (replicate 19 0%nat)
              (mkConfig bakery_init [(0, New)])
              (mkConfig (mkBakery [false] [0]) [(0, Released)]) 0
              fresh_start_one_new eq_refl) as (_ & _ & _ & H).
  apply (H 0%nat). reflexivity.
Defined.

Lemma lock_step_grows (i : Z) (p p' : pc) (b b' : Bakery) :
  lock_step i p b = Py.Ok (p', b') ->
  (length (choosing b) <= length (choosing b'))%nat /\
  (length (number b) <= length (number b'))%nat.
Proof.
  intros Hs.
  destruct p as [| | |m| | |n j|n j|n j|n j|]; simpl in Hs;
    unfold Py.bind in Hs;
    try (injection Hs as <- <-; split; lia).
  - injection Hs as <- <-. apply ensure_grows.
  - destruct (Py.setitem (choosing b) i true) as [ch|] eqn:E; [|discriminate].
    injection Hs as <- <-. simpl. rewrite (setitem_length _ _ _ _ E). lia.
  - destruct (Py.setitem (number b) i (m + 1)) as [nm|] eqn:E; [|discriminate].
    injection Hs as <- <-. simpl. rewrite (setitem_length _ _ _ _ E). lia.
  - destruct (Py.setitem (choosing b) i false) as [ch|] eqn:E; [|discriminate].
    injection Hs as <- <-. simpl. rewrite (setitem_length _ _ _ _ E). lia.
  - destruct (Py.getitem (choosing b) j); [|discriminate].
    injection Hs as <- <-. split; lia.
  - destruct (number_cond i j b); [|discriminate].
    injection Hs as <- <-. split; lia.
Qed.

(** X9: whatever the ids and the schedule, an interleaving of
    [bakery_lock] and [bakery_unlock] never shortens [choosing] or
    [number], and the participants keep their ids: a slot, once there,
    stays. *)
Theorem registry_only_grows (sched : list nat) (c c' : Config) :
  run_schedule sched c = Py.Ok c' ->
  (length (choosing (shared c)) <= length (choosing (shared c')))%nat /\
  (length (number (shared c)) <= length (number (shared c')))%nat /\
  fst <$> threads c' = fst <$> threads c.
Proof.
  revert c. induction sched as [|t sched IH]; intros c; simpl.
  - intros [= <-]. repeat split; lia.
  - unfold Py.bind at 1. destruct (sys_step t c) as [c1|] eqn:E; [|discriminate].
    intros Hrun. destruct (IH _ Hrun) as (Hc & Hn & Hids).
    rewrite Hids, (sys_step_ids _ _ _ E).
    cut ((length (choosing (shared c)) <= length (choosing (shared c1)))%nat /\
         (length (number (shared c)) <= length (number (shared c1)))%nat).
    { intros [? ?]. repeat split; lia. }
    unfold sys_step in E. destruct (threads c !! t) as [[i th]|];
      [|injection E as <-; split; lia].
    unfold Py.bind in E.
    destruct (thread_step i th (shared c)) as [[th' b']|] eqn:Es; [|discriminate].
    injection E as <-. simpl.
    destruct (thread_step_effect _ _ _ _ _ Es) as [->|[(p & p' & H)|H]];
      try (split; lia).
    + eapply lock_step_grows; eassumption.
    + unfold bakery_unlock, Py.bind in H.
      destruct (Py.setitem (number (shared c)) i 0) as [nm|] eqn:En;
        [|discriminate].
      injection H as <-. simpl. rewrite (setitem_length _ _ _ _ En). lia.
Qed.

Lemma registry_only_grows_witness :
  run_schedule [0; 0]%nat (mkConfig bakery_init [(3, Idle)]) =
    Py.Ok (mkConfig (mkBakery [false; false; false; false] [0; 0; 0; 0])
                    [(3, Locking AtSetChoosing)]) /\
  (length (choosing bakery_init) <= 4)%nat.
Proof.
  split; [reflexivity|].
  exact (proj1 (registry_only_grows [0; 0]%nat
                  (mkConfig bakery_init [(3, Idle)])
                  (mkConfig (mkBakery [false; false; false; false] [0; 0; 0; 0])
                            [(3, Locking AtSetChoosing)])
                  eq_refl)).
Defined.

(** * Id allocation in a row *)

Lemma ensure_noop (idx : Z) (b : Bakery) :
  idx < Py.len (choosing b) -> ensure_bakery_size idx b = b.
Proof.
  intros H. rewrite ensure_closed_form. unfold missing.
  replace (Z.to_nat (idx + 1 - Py.len (choosing b))) with 0%nat by lia.
  simpl. rewrite !app_nil_r. destruct b; reflexivity.
Qed.

Lemma ensure_covers (idx : Z) (b : Bakery) :
  idx < Py.len (choosing (ensure_bakery_size idx b)).
Proof.
  rewrite ensure_closed_form. unfold Py.len, missing, Py.len. simpl.
  rewrite length_app, length_replicate. lia.
Qed.

Lemma allocate_many_ids_eq (n : nat) (w : World) :
  fst (allocate_many n w) =
  (fun j : nat => bakery_id_counter (SYSTEM w) + Z.of_nat j) <$> seq 0 n.
Proof.
  revert w. induction n as [|n IH]; intros w; [reflexivity|].
  cbn [allocate_many fst snd seq fmap list_fmap].
  rewrite IH. cbn [allocate_bakery_id fst snd SYSTEM bakery_id_counter].
  f_equal; [lia|].
  rewrite <- fmap_S_seq, <- list_fmap_compose.
  apply list_fmap_ext. intros _ j _. simpl. lia.
Qed.

Lemma allocate_many_counter (n : nat) (w : World) :
  bakery_id_counter (SYSTEM (snd (allocate_many n w))) =
  bakery_id_counter (SYSTEM w) + Z.of_nat n.
Proof.
  revert w. induction n as [|n IH]; intros w; [simpl; lia|].
  cbn [allocate_many snd]. rewrite IH. simpl. lia.
Qed.

Lemma allocate_many_extends (n : nat) (w : World) :
  exists m : nat,
    choosing (bakery (snd (allocate_many n w))) =
      choosing (bakery w) ++ replicate m false /\
    number (bakery (snd (allocate_many n w))) =
      number (bakery w) ++ replicate m 0.
Proof.
  revert w. induction n as [|n IH]; intros w.
  - exists 0%nat. simpl. rewrite !app_nil_r. auto.
  - cbn [allocate_many snd].
    destruct (IH (snd (allocate_bakery_id w))) as (m & -> & ->).
    cbn [allocate_bakery_id snd bakery]. rewrite ensure_closed_form. simpl.
    exists (missing (bakery_id_counter (SYSTEM w)) (bakery w) + m)%nat.
    rewrite !replicate_add, !app_assoc. auto.
Qed.

Lemma allocate_many_covers (n : nat) (w : World) (id : Z) :
  id ∈ fst (allocate_many n w) ->
  id < Py.len (choosing (bakery (snd (allocate_many n w)))).
Proof.
  revert w. induction n as [|n IH]; intros w; cbn [allocate_many fst snd].
  - intros H. apply elem_of_nil in H. contradiction.
  - intros H. apply elem_of_cons in H as [->|H]; [|apply IH; exact H].
    destruct (allocate_many_extends n (snd (allocate_bakery_id w)))
      as (m & -> & _).
    cbn [allocate_bakery_id fst snd bakery].
    pose proof (ensure_covers (bakery_id_counter (SYSTEM w)) (bakery w)) as Hc.
    unfold Py.len in *. rewrite length_app. lia.
Qed.

(** X10: [n] calls of [allocate_bakery_id] in a row return the counter,
    the counter plus one, and so on, each id once and in increasing order,
    and advance the counter by [n]; afterwards every id returned has its
    slot, so that the [ensure_bakery_size] of a later [bakery_lock(id)]
    appends nothing, and every slot that was there before is as it was. *)
Theorem allocate_many_consecutive (n : nat) (w : World) :
  let ids := fst (allocate_many n w) in
  let w' := snd (allocate_many n w) in
  ids = (fun j : nat => bakery_id_counter (SYSTEM w) + Z.of_nat j) <$> seq 0 n /\
  NoDup ids /\
  bakery_id_counter (SYSTEM w') = bakery_id_counter (SYSTEM w) + Z.of_nat n /\
  (forall id, id ∈ ids ->
     id < Py.len (choosing (bakery w')) /\
     ensure_bakery_size id (bakery w') = bakery w') /\
  (forall (k : nat) (c : bool),
     choosing (bakery w) !! k = Some c -> choosing (bakery w') !! k = Some c) /\
  (forall (k : nat) (x : Z),
     number (bakery w) !! k = Some x -> number (bakery w') !! k = Some x).
Proof.
  cbv zeta.
  split; [apply allocate_many_ids_eq|].
  split.
  { rewrite allocate_many_ids_eq. apply NoDup_fmap_2; [|apply NoDup_seq].
    intros j1 j2 H. lia. }
  split; [apply allocate_many_counter|].
  split.
  { intros id Hid. pose proof (allocate_many_covers n w id Hid) as Hc.
    split; [exact Hc | apply ensure_noop; exact Hc]. }
  destruct (allocate_many_extends n w) as (m & -> & ->).
  split; intros k c H; apply lookup_app_l_Some; exact H.
Qed.

Lemma allocate_many_tight (n : nat) (w : World) :
  Py.len (choosing (bakery w)) = bakery_id_counter (SYSTEM w) ->
  bakery (snd (allocate_many n w)) =
  mkBakery (choosing (bakery w) ++ replicate n false)
           (number (bakery w) ++ replicate n 0).
Proof.
  revert w. induction n as [|n IH]; intros w Hc.
  - simpl. rewrite !app_nil_r. destruct (bakery w); reflexivity.
  - cbn [allocate_many snd].
    assert (E : bakery (snd (allocate_bakery_id w)) =
                mkBakery (choosing (bakery w) ++ [false])
                         (number (bakery w) ++ [0])).
    { cbn [allocate_bakery_id snd bakery]. rewrite ensure_closed_form.
      unfold missing. rewrite Hc.
      replace (Z.to_nat (bakery_id_counter (SYSTEM w) + 1
                         - bakery_id_counter (SYSTEM w))) with 1%nat by lia.
      reflexivity. }
    rewrite IH.
    + rewrite E. simpl. rewrite <- !app_assoc. reflexivity.
    + rewrite E. cbn [allocate_bakery_id snd SYSTEM bakery_id_counter choosing].
      unfold Py.len in *. rewrite length_app. simpl. lia.
Qed.

(** X11: after [System.reset], [n] allocations in a row hand out
    [0, 1, ..., n-1] and leave a registry of exactly [n] default slots,
    whatever the state before the reset was. *)
Theorem reset_then_allocate (n : nat) (w : World) :
  fst (allocate_many n (reset w)) = Z.of_nat <$> seq 0 n /\
  bakery (snd (allocate_many n (reset w))) =
    mkBakery (replicate n false) (replicate n 0) /\
  bakery_id_counter (SYSTEM (snd (allocate_many n (reset w)))) = Z.of_nat n.
Proof.
  split; [|split].
  - rewrite allocate_many_ids_eq. apply list_fmap_ext. intros _ j _.
    reflexivity.
  - rewrite allocate_many_tight by reflexivity. reflexivity.
  - rewrite allocate_many_counter. reflexivity.
Qed.

(** * [Process.set_state] *)

(** X12: when the process has a bakery id whose slot no other flag
    contends with, [set_state] run alone returns, prints exactly its one
    transition line, changes no field but [state], and leaves
    [number[id]] at 0 whatever it was before: a caller that held the lock
    through that id when it called [set_state] holds it no more. *)
Theorem set_state_releases (fuel : nat) (self : Process) (new_state : string)
        (b : Bakery) (out : list string) (i : Z) :
  bakery_id self = Some i ->
  0 <= i -> lengths_agree b -> others_clear (Z.to_nat i) b ->
  (length (number (ensure_bakery_size i b)) + 6 <= fuel)%nat ->
  exists b2,
    set_state fuel self new_state b out =
      Done (with_state self new_state, b2,
            out ++ [transition_line self new_state]) /\
    state (with_state self new_state) = new_state /\
    number b2 = <[Z.to_nat i := 0]> (number (ensure_bakery_size i b)) /\
    number b2 !! Z.to_nat i = Some 0 /\
    choosing b2 = <[Z.to_nat i := false]> (choosing (ensure_bakery_size i b)).
Proof.
  intros Hid H0 Hlen Hoth Hfuel.
  assert (Hrun : bakery_lock fuel i b = Returns 0 (ticket_taken i b)).
  { apply bakery_lock_others_clear; try assumption.
    unfold ticket_taken. simpl. rewrite length_insert. exact Hfuel. }
  destruct (ensure_index_nonneg i b H0 Hlen) as (_ & In_ & _ & Ln).
  cbv zeta in In_, Ln.
  assert (Hun : bakery_unlock i (ticket_taken i b) =
                Py.Ok (mkBakery
                         (<[Z.to_nat i := false]>
                            (choosing (ensure_bakery_size i b)))
                         (<[Z.to_nat i := 0]>
                            (number (ensure_bakery_size i b))))).
  { unfold bakery_unlock, Py.setitem.
    rewrite (index_length _ (number (ensure_bakery_size i b)))
      by (unfold ticket_taken; simpl; apply length_insert).
    rewrite In_. unfold Py.bind, ticket_taken. simpl.
    rewrite !list_insert_insert_eq. reflexivity. }
  eexists. unfold set_state. rewrite Hid, Hrun, Hun.
  split; [reflexivity|]. split; [reflexivity|]. split; [reflexivity|].
  split; [|reflexivity].
  simpl. apply list_lookup_insert_eq. exact Ln.
Qed.

Lemma set_state_releases_witness :
  exists b2,
    set_state 8
      (Process_init 1 5 1 (Some 0)) "READY"
      (mkBakery [false; false] [1; 0]) [] =
    Done (with_state (Process_init 1 5 1 (Some 0)) "READY", b2,
          [transition_line (Process_init 1 5 1 (Some 0)) "READY"]) /\
    number b2 = [0; 0].
Proof.
  assert (H0 : 0 <= 0) by lia.
  assert (Hoth : others_clear (Z.to_nat 0) (mkBakery [false; false] [1; 0])).
  { intros [|[|j]] c Hj; simpl; intros [= <-] || discriminate; reflexivity. }
  assert (Hfuel : (length (number (ensure_bakery_size 0%Z
                     (mkBakery [false; false] [1; 0]%Z))) + 6 <= 8)%nat).
  { vm_compute. lia. }
  destruct (set_state_releases 8 (Process_init 1 5 1 (Some 0)) "READY"
              (mkBakery [false; false] [1; 0]) [] 0
              eq_refl H0 eq_refl Hoth Hfuel) as (b2 & Hrun & _ & Hn & _).
  exists b2. split; [exact Hrun | exact Hn].
Defined.

(** * The comparison of line 74 *)

Lemma ticket_lt_irrefl (a i : Z) : ticket_lt a i a i = false.
Proof.
  unfold ticket_lt.
  destruct (Z.ltb_spec a a), (Z.eqb_spec a a), (Z.ltb_spec i i);
    simpl; try reflexivity; lia.
Qed.

Lemma ticket_lt_asym (a i b j : Z) :
  ticket_lt a i b j = true -> ticket_lt b j a i = false.
Proof.
  unfold ticket_lt.
  destruct (Z.ltb_spec a b), (Z.eqb_spec a b), (Z.ltb_spec i j),
           (Z.ltb_spec b a), (Z.eqb_spec b a), (Z.ltb_spec j i);
    simpl; try reflexivity; try discriminate; lia.
Qed.

(** X13: the comparison of line 74 orders the pairs (ticket, index)
    strictly and totally: no pair is before itself, of two distinct pairs
    exactly one is before the other, and the order is transitive; so two
    participants never see each other in front. *)
Theorem ticket_lt_strict_total_order (a i b j c k : Z) :
  ticket_lt a i a i = false /\
  (ticket_lt a i b j = true -> ticket_lt b j a i = false) /\
  ((a, i) <> (b, j) -> ticket_lt a i b j = true \/ ticket_lt b j a i = true) /\
  (ticket_lt a i b j = true -> ticket_lt b j c k = true ->
   ticket_lt a i c k = true).
Proof.
  split; [apply ticket_lt_irrefl|]. split; [apply ticket_lt_asym|].
  unfold ticket_lt. split.
  - intros Hne.
    destruct (Z.ltb_spec a b), (Z.eqb_spec a b), (Z.ltb_spec i j),
             (Z.ltb_spec b a), (Z.eqb_spec b a), (Z.ltb_spec j i);
      simpl; auto; try lia.
    exfalso. apply Hne. f_equal; lia.
  - destruct (Z.ltb_spec a b), (Z.eqb_spec a b), (Z.ltb_spec i j),
             (Z.ltb_spec b c), (Z.eqb_spec b c), (Z.ltb_spec j k),
             (Z.ltb_spec a c), (Z.eqb_spec a c), (Z.ltb_spec i k);
      simpl; try reflexivity; try discriminate; lia.
Qed.

Lemma ticket_lt_strict_total_order_witness :
  ticket_lt 1 0 1 1 = true /\ ticket_lt 1 1 1 0 = false.
Proof.
  split; [reflexivity|].
  destruct (ticket_lt_strict_total_order 1 0 1 1 0 0) as (_ & H & _).
  apply H. reflexivity.
Defined.

(** X14: the test of line 74 never holds for a participant against
    itself, never against a slot whose ticket is 0, and never for two
    participants against each other at once: when [i] has to wait for
    [j], [j] does not have to wait for [i]. *)
Theorem number_cond_one_way (i j : Z) (b : Bakery) :
  (number_cond i j b = Py.Ok true -> number_cond j i b = Py.Ok false) /\
  number_cond i i b <> Py.Ok true /\
  (Py.getitem (number b) j = Py.Ok 0 -> number_cond i j b = Py.Ok false).
Proof.
  unfold number_cond, Py.bind. repeat split.
  - destruct (Py.getitem (number b) j) as [nj|]; [|discriminate].
    destruct (Z.eqb_spec nj 0); [discriminate|].
    destruct (Py.getitem (number b) i) as [ni|]; [|discriminate].
    intros [= H]. destruct (Z.eqb_spec ni 0); [reflexivity|].
    f_equal. apply ticket_lt_asym. exact H.
  - destruct (Py.getitem (number b) i) as [ni|]; [|discriminate].
    destruct (ni =? 0); [discriminate|].
    rewrite ticket_lt_irrefl. discriminate.
  - intros ->. reflexivity.
Qed.

Lemma number_cond_one_way_witness :
  number_cond 1 0 (mkBakery [false; false] [1; 2]) = Py.Ok true /\
  number_cond 0 1 (mkBakery [false; false] [1; 2]) = Py.Ok false.
Proof.
  split; [reflexivity|].
  apply (number_cond_one_way 1 0 (mkBakery [false; false] [1; 2])).
  reflexivity.
Defined.

(** * Interleavings with the nested call *)

Lemma fresh_start_new_and_idle :
  fresh_start (mkConfig (mkBakery [false; false] [0; 0]) [(0, New); (1, Idle)]).
Proof.
  split; [split|split; [|split]].
  - simpl. apply (bool_decide_unpack _). reflexivity.
  - intros [|[|t]] i th; simpl; intros [= <- <-] || discriminate; lia.
  - reflexivity.
  - intros [|[|t]] i th; simpl; intros [= <- <-] || discriminate; auto.
  - intros [|[|k]]; split; reflexivity.
Qed.

(** X15: the same holds when participants go through the section of
    [option_1_simulate_process], in which [set_state] runs [bakery_lock]
    and [bakery_unlock] a second time with the same id: from a start with
    distinct non-negative ids, every participant idle or just created and
    every slot at its default, no interleaving raises [IndexError]. *)
Theorem nested_interleaving_never_raises (sched : list nat) (c : Config) :
  fresh_start c -> exists c', run_schedule sched c = Py.Ok c'.
Proof.
  intros Hq.
  destruct (run_schedule_config_inv sched c (fresh_start_config_inv c Hq))
    as (c' & E & _).
  exists c'. exact E.
Qed.

Lemma nested_interleaving_never_raises_witness :
  exists c',
    run_schedule (replicate 12 0%nat ++ [1; 1; 0; 1; 0; 0; 1; 0]%nat)
      (mkConfig (mkBakery [false; false] [0; 0]) [(0, New); (1, Idle)])
    = Py.Ok c'.
Proof.
  exact (nested_interleaving_never_raises
           (replicate 12 0%nat ++ [1; 1; 0; 1; 0; 0; 1; 0]%nat)
           (mkConfig (mkBakery [false; false] [0; 0]) [(0, New); (1, Idle)])
           fresh_start_new_and_idle).
Defined.

(** X16: in every state an interleaving reaches from such a start,
    [choosing[k]] is true exactly when slot [k] belongs to a participant
    that is between lines 62 and 66 of one of its calls of [bakery_lock]:
    a plain one, the one that opens the section of
    [option_1_simulate_process], or the one [set_state] makes inside
    it. *)
Theorem flag_set_iff_in_window_of_a_call
        (sched : list nat) (c c' : Config) (k : nat) :
  fresh_start c -> run_schedule sched c = Py.Ok c' ->
  (choosing (shared c') !! k = Some true <->
   exists (t : nat) (x : call_site) (p : pc),
     threads c' !! t = Some (Z.of_nat k, in_lock x p) /\
     in_choosing_window p = true).
Proof.
  intros Hq Hrun.
  destruct (fresh_reached_config_inv sched c c' Hq Hrun)
    as (_ & _ & _ & Hthr & Hun).
  split.
  - intros Hk.
    assert (Hf : flag (shared c') k = true)
      by (unfold flag; rewrite Hk; reflexivity).
    destruct (owned_dec c' k) as [(t & th & Ht)|Hno].
    + destruct (Hthr _ _ _ Ht) as (_ & Hflag & _).
      rewrite Nat2Z.id, Hf in Hflag.
      destruct th as [|p| | |p| |p| |]; try discriminate Hflag.
      * exists t, Plain, p. split; [exact Ht | symmetry; exact Hflag].
      * exists t, Opening, p. split; [exact Ht | symmetry; exact Hflag].
      * exists t, Nested, p. split; [exact Ht | symmetry; exact Hflag].
    + destruct (Hun k Hno) as [Hfalse _]. congruence.
  - intros (t & x & p & Ht & Hw).
    destruct (Hthr _ _ _ Ht) as (_ & Hflag & _).
    rewrite Nat2Z.id, thread_window_in_lock, Hw in Hflag.
    unfold flag in Hflag.
    destruct (choosing (shared c') !! k) as [[|]|]; try discriminate Hflag.
    reflexivity.
Qed.

Lemma flag_set_iff_in_window_of_a_call_witness :
  run_schedule (replicate 13 0%nat)
    (mkConfig (mkBakery [false; false] [0; 0]) [(0, New); (1, Idle)]) =
  Py.Ok (mkConfig (mkBakery [true; false] [1; 0])
                  [(0, Relocking AtReadMax); (1, Idle)]) /\
  choosing (mkBakery [true; false] [1; 0]) !! 0%nat = Some true.
Proof.
  split; [vm_compute; reflexivity|].
  apply (flag_set_iff_in_window_of_a_call (replicate 13 0%nat)
           (mkConfig (mkBakery [false; false] [0; 0]) [(0, New); (1, Idle)])
           (mkConfig (mkBakery [true; false] [1; 0])
                     [(0, Relocking AtReadMax); (1, Idle)])
           0 fresh_start_new_and_idle).
  - vm_compute. reflexivity.
  - exists 0%nat, Nested, AtReadMax. split; reflexivity.
Defined.
